(** * A shallow embedding of [client.py] (MCPClient) of my-first-mcp-client

    The model covers the query pipeline of [MCPClient]:
    - [process_query]: list the tools of the MCP session, convert them to the
      Ollama function-calling format, ask the model, run every tool call it
      requested and compose the reply text;
    - [chat_loop]: the interactive read-eval-print loop around it.

    Python values are modelled by [pyval]; a raised Python exception by
    [exc], whose [exc_msg] is [str(e)].  Everything the code does that can be
    observed from outside (listing tools, calling Ollama, calling a tool,
    printing) is recorded as an [event], in order, by a small writer+exception
    monad [M].  The MCP session ([self.session]) and the Python library calls
    the code makes ([ollama.chat], [json.loads]) are parameters of the model.
    Strings are ASCII strings. *)

From Stdlib Require Import String Ascii List Bool Arith Lia.
Import ListNotations.
Open Scope string_scope.
Set Warnings "-register-all".

(** ** Python values and exceptions *)

Inductive pyval : Type :=
| PNone
| PBool (b : bool)
| PStr (s : string)
| PList (l : list pyval)
| PDict (kvs : list (string * pyval))
| PObj (cls : string) (attrs : list (string * pyval)).

(** [d.get(k, default)] on a dict (string keys) and attribute lookup. *)
Fixpoint assoc (k : string) (kvs : list (string * pyval)) : option pyval :=
  match kvs with
  | [] => None
  | (k', v) :: rest => if String.eqb k k' then Some v else assoc k rest
  end.

Definition dict_get (d : list (string * pyval)) (k : string) (default : pyval) : pyval :=
  match assoc k d with Some v => v | None => default end.

(** [repr(v)]; strings are quoted with single quotes. *)
Fixpoint py_repr (v : pyval) : string :=
  match v with
  | PNone => "None"
  | PBool true => "True"
  | PBool false => "False"
  | PStr s => "'" ++ s ++ "'"
  | PList l => "[" ++ String.concat ", " (map py_repr l) ++ "]"
  | PDict kvs =>
      "{" ++ String.concat ", " (map (fun '(k, x) => "'" ++ k ++ "': " ++ py_repr x) kvs) ++ "}"
  | PObj cls attrs =>
      cls ++ "(" ++ String.concat ", " (map (fun '(k, x) => k ++ "=" ++ py_repr x) attrs) ++ ")"
  end.

(** [str(v)]: a string is itself; an object (a pydantic model) prints its
    fields as [k=repr(v)] separated by spaces; anything else as its repr. *)
Definition py_str (v : pyval) : string :=
  match v with
  | PStr s => s
  | PObj _ attrs => String.concat " " (map (fun '(k, x) => k ++ "=" ++ py_repr x) attrs)
  | _ => py_repr v
  end.

Definition type_name (v : pyval) : string :=
  match v with
  | PNone => "NoneType"
  | PBool _ => "bool"
  | PStr _ => "str"
  | PList _ => "list"
  | PDict _ => "dict"
  | PObj cls _ => cls
  end.

Record exc := mk_exc { exc_type : string; exc_msg : string }.

Inductive result (A : Type) : Type :=
| Ok (a : A)
| Raise (e : exc).
Arguments Ok {A} a.
Arguments Raise {A} e.

(** ** Observable events and the effect monad *)

Inductive event : Type :=
| EvListTools
| EvChat (model : string) (messages : list pyval) (tools : option (list pyval))
| EvCallTool (name : string) (arguments : pyval)
| EvPrint (s : string).

Definition M (A : Type) : Type := (list event * result A)%type.

Definition ret {A} (a : A) : M A := ([], Ok a).

Definition raise {A} (e : exc) : M A := ([], Raise e).

Definition bind {A B} (m : M A) (k : A -> M B) : M B :=
  match m with
  | (l, Ok a) => let (l', r) := k a in (app l l', r)
  | (l, Raise e) => (l, Raise e)
  end.

Notation "x <- m ;; k" := (bind m (fun x => k))
  (at level 61, m at next level, right associativity).

(** [try: m except Exception as e: h(e)] *)
Definition try_except {A} (m : M A) (h : exc -> M A) : M A :=
  match m with
  | (l, Ok a) => (l, Ok a)
  | (l, Raise e) => let (l', r) := h e in (app l l', r)
  end.

(** An effect: the event happens, then its outcome (a value or a raise). *)
Definition perform {A} (ev : event) (r : result A) : M A := ([ev], r).

Definition lift {A} (r : result A) : M A := ([], r).

Definition print (s : string) : M unit := ([EvPrint s], Ok tt).

(** ** The collaborators *)

(** A tool object of [response.tools] is seen by the code only through
    [tool.model_dump()], so a tool is represented by that dict. *)
Definition tool_dump := list (string * pyval).

(** The MCP [ClientSession]: [list_tools()] and [call_tool(name, arguments=...)]. *)
Record session := mk_session {
  list_tools : result (list tool_dump);
  call_tool : string -> pyval -> result pyval
}.

(** One entry of [message["tool_calls"]]: [function.name] and
    [function.arguments]; [None] when the key is missing. *)
Record tool_call := mk_tool_call {
  function_name : option string;
  function_arguments : option pyval
}.

(** [response["message"]]: its [content] and [tool_calls] ([None] when the
    key is missing or its value is None). *)
Record message := mk_message {
  content : option string;
  tool_calls : option (list tool_call)
}.

(** The library functions the code calls: [ollama.chat(model=, messages=,
    tools=)] (its [message] field) and [json.loads], which raises
    [json.JSONDecodeError] on malformed text and other exceptions on some
    well-formed texts ([ValueError] for an integer literal of more than 4300
    digits, [RecursionError] for deeply nested arrays). *)
Record runtime := mk_runtime {
  ollama_chat : string -> list pyval -> option (list pyval) -> result message;
  json_loads : string -> result pyval
}.

(** The fields of [MCPClient] that [process_query] and [chat_loop] read. *)
Record client := mk_client {
  client_session : option session;
  client_model : string
}.

(** ** [process_query] (client.py, lines 110-183) *)

(** Lines 122-132: one MCP tool converted to the Ollama function format. *)
Definition to_function_def (tool_dict : tool_dump) : pyval :=
  PDict [("type", PStr "function");
         ("function", PDict [("name", dict_get tool_dict "name" (PStr ""));
                             ("description", dict_get tool_dict "description" (PStr ""));
                             ("parameters", dict_get tool_dict "inputSchema" (PDict []))])].

(** [except json.JSONDecodeError:] *)
Definition is_json_decode_error (e : exc) : bool := String.eqb (exc_type e) "JSONDecodeError".

(** Lines 159-166: [function_args] from [function_args_raw]; an exception
    of [json.loads] other than [json.JSONDecodeError] is not caught. *)
Definition parse_arguments (rt : runtime) (function_args_raw : pyval) : result pyval :=
  match function_args_raw with
  | PStr s =>
      match json_loads rt s with
      | Ok v => Ok v
      | Raise e => if is_json_decode_error e then Ok (PDict []) else Raise e
      end
  | PDict kvs => Ok (PDict kvs)
  | _ => Ok (PDict [])
  end.

(** [hasattr(v, '__iter__')], [len(v)] and [v[0]] for the values that have them. *)
Definition has_iter (v : pyval) : bool :=
  match v with PStr _ | PList _ | PDict _ => true | _ => false end.

Definition py_len (v : pyval) : nat :=
  match v with
  | PStr s => String.length s
  | PList l => length l
  | PDict kvs => length kvs
  | _ => 0
  end.

Definition py_index0 (v : pyval) : result pyval :=
  match v with
  | PList (x :: _) => Ok x
  | PStr (String c _) => Ok (PStr (String c EmptyString))
  | PDict _ => Raise (mk_exc "KeyError" "0")
  | PList [] | PStr EmptyString => Raise (mk_exc "IndexError" "index out of range")
  | _ => Raise (mk_exc "TypeError" ("'" ++ type_name v ++ "' object is not subscriptable"))
  end.

(** [v.text] *)
Definition get_text (v : pyval) : result pyval :=
  match v with
  | PObj _ attrs =>
      match assoc "text" attrs with
      | Some t => Ok t
      | None => Raise (mk_exc "AttributeError" ("'" ++ type_name v ++ "' object has no attribute 'text'"))
      end
  | _ => Raise (mk_exc "AttributeError" ("'" ++ type_name v ++ "' object has no attribute 'text'"))
  end.

(** Lines 172-175: [result_text] from [tool_result]. *)
Definition extract_result_text (tool_result : pyval) : result string :=
  match tool_result with
  | PObj _ attrs =>
      match assoc "content" attrs with
      | Some c =>
          if has_iter c && Nat.ltb 0 (py_len c)
          then match py_index0 c with
               | Ok first => match get_text first with
                             | Ok t => Ok (py_str t)
                             | Raise e => Raise e
                             end
               | Raise e => Raise e
               end
          else Ok (py_str c)
      | None => Ok (py_str tool_result)
      end
  | _ => Ok (py_str tool_result)
  end.

Definition name_of (tc : tool_call) : string :=
  match function_name tc with Some n => n | None => "" end.

Definition raw_arguments_of (tc : tool_call) : pyval :=
  match function_arguments tc with Some a => a | None => PDict [] end.

(** Lines 155-178: the body of the [for tool_call in tool_calls] loop. *)
Definition call_one (rt : runtime) (s : session) (tc : tool_call) : M string :=
  let function_name := name_of tc in
  function_args <- lift (parse_arguments rt (raw_arguments_of tc)) ;;
  try_except
    (tool_result <- perform (EvCallTool function_name function_args)
                            (call_tool s function_name function_args) ;;
     result_text <- lift (extract_result_text tool_result) ;;
     ret ("Tool '" ++ function_name ++ "' result: " ++ result_text))
    (fun e => ret ("Error calling tool '" ++ function_name ++ "': " ++ exc_msg e)).

(** Lines 153-178: the loop appending to [tool_responses]. *)
Fixpoint run_tool_calls (rt : runtime) (s : session) (tcs : list tool_call)
    (tool_responses : list string) : M (list string) :=
  match tcs with
  | [] => ret tool_responses
  | tc :: rest =>
      r <- call_one rt s tc ;;
      run_tool_calls rt s rest (app tool_responses [r])
  end.

(** Python truthiness of [content] ([None] and [""] are false). *)
Definition truthy (o : option string) : bool :=
  match o with Some str => negb (String.eqb str "") | None => false end.

Definition content_str (o : option string) : string :=
  match o with Some str => str | None => "" end.

Definition session_error : exc :=
  mk_exc "RuntimeError" "Session is not initialized. Call connect_to_server() first.".

Definition user_messages (query : string) : list pyval :=
  [PDict [("role", PStr "user"); ("content", PStr query)]].

(** [tools if tools else None] *)
Definition tools_argument (tools : list pyval) : option (list pyval) :=
  match tools with [] => None | _ => Some tools end.

Definition process_query (rt : runtime) (c : client) (query : string) : M string :=
  match client_session c with
  | None => raise session_error
  | Some s =>
      available_tools <- perform EvListTools (list_tools s) ;;
      let tools := map to_function_def available_tools in
      let messages := user_messages query in
      message <- perform (EvChat (client_model c) messages (tools_argument tools))
                         (ollama_chat rt (client_model c) messages (tools_argument tools)) ;;
      let content := content message in
      match tool_calls message with
      | Some ((_ :: _) as tcs) =>
          tool_responses <- run_tool_calls rt s tcs [] ;;
          ret (if truthy content
               then String.concat (String "010" EmptyString) (content_str content :: tool_responses)
               else String.concat (String "010" EmptyString) tool_responses)
      | _ => ret (if truthy content then content_str content else "")
      end
  end.

(** ** [chat_loop] (client.py, lines 185-201) *)

(** [str.isspace] on ASCII: '\t' '\n' '\x0b' '\x0c' '\r', '\x1c'..'\x1f' and ' '. *)
Definition is_space (a : ascii) : bool :=
  let n := nat_of_ascii a in
  (Nat.leb 9 n && Nat.leb n 13) || (Nat.leb 28 n && Nat.leb n 32).

Fixpoint lstrip (s : string) : string :=
  match s with
  | EmptyString => EmptyString
  | String a rest => if is_space a then lstrip rest else s
  end.

Definition rev_string (s : string) : string :=
  string_of_list_ascii (rev (list_ascii_of_string s)).

(** [s.strip()] *)
Definition strip (s : string) : string :=
  rev_string (lstrip (rev_string (lstrip s))).

Definition lower_ascii (a : ascii) : ascii :=
  let n := nat_of_ascii a in
  if Nat.leb 65 n && Nat.leb n 90 then ascii_of_nat (n + 32) else a.

(** [s.lower()] *)
Fixpoint lower (s : string) : string :=
  match s with
  | EmptyString => EmptyString
  | String a rest => String (lower_ascii a) (lower rest)
  end.

Definition nl : string := String "010" EmptyString.

Definition prompt : string := nl ++ "Query: ".

Definition eof_error : exc := mk_exc "EOFError" "EOF when reading a line".

(** [input(prompt)]: writes the prompt and reads one line of the remaining
    standard input; at end of input it raises [EOFError]. *)
Definition input (inp : list string) : list string * M string :=
  match inp with
  | [] => ([], perform (EvPrint prompt) (Raise eof_error))
  | line :: rest => (rest, perform (EvPrint prompt) (Ok line))
  end.

Inductive loop_ctl : Type := Continue | Break.

(** Lines 191-201: one pass of the [while True] body. *)
Definition iteration (rt : runtime) (c : client) (inp : list string)
    : list string * M loop_ctl :=
  let (rest, read) := input inp in
  (rest,
   try_except
     (line <- read ;;
      let query := strip line in
      if String.eqb (lower query) "quit" then ret Break
      else response <- process_query rt c query ;;
           _ <- print (nl ++ response) ;;
           ret Continue)
     (fun e => _ <- print (nl ++ "Error: " ++ exc_msg e) ;; ret Continue)).

(** How a run of the loop ends: [break] (with the input left), an exception
    leaving the loop, or still running when the fuel is spent. *)
Inductive loop_end : Type :=
| Exited (rest : list string)
| Propagated (e : exc)
| Running.

(** Lines 190-201, [fuel] passes at most. *)
Fixpoint while_loop (fuel : nat) (rt : runtime) (c : client) (inp : list string)
    : list event * loop_end :=
  match fuel with
  | O => ([], Running)
  | S fuel' =>
      let (rest, body) := iteration rt c inp in
      match body with
      | (evs, Ok Break) => (evs, Exited rest)
      | (evs, Ok Continue) =>
          let (evs', e) := while_loop fuel' rt c rest in (app evs evs', e)
      | (evs, Raise e) => (evs, Propagated e)
      end
  end.

Definition chat_loop (fuel : nat) (rt : runtime) (c : client) (inp : list string)
    : list event * loop_end :=
  let (evs, e) := while_loop fuel rt c inp in
  (EvPrint (nl ++ "MCP Client Started!") :: EvPrint "Type your queries or 'quit' to exit." :: evs, e).

(** An MCP [Tool] as [list_tools()] returns it and its [model_dump()]:
    pydantic dumps every field, an unset optional one as None. *)
Record mcp_tool := mk_mcp_tool {
  tool_name : string;
  tool_description : option string;
  tool_inputSchema : list (string * pyval)
}.

Definition mcp_tool_model_dump (t : mcp_tool) : tool_dump :=
  [("name", PStr (tool_name t));
   ("description", match tool_description t with Some d => PStr d | None => PNone end);
   ("inputSchema", PDict (tool_inputSchema t))].

(** Whether the arguments of a tool call normalise without an exception. *)
Definition arguments_normalise (rt : runtime) (tc : tool_call) : bool :=
  match parse_arguments rt (raw_arguments_of tc) with Ok _ => true | Raise _ => false end.

(** The [call_tool] event of a tool call whose arguments normalised (no
    other call reaches [call_tool]). *)
Definition call_event (rt : runtime) (tc : tool_call) : event :=
  EvCallTool (name_of tc)
    (match parse_arguments rt (raw_arguments_of tc) with Ok a => a | Raise _ => PDict [] end).

Definition tool_calls_list (msg : message) : list tool_call :=
  match tool_calls msg with Some l => l | None => [] end.

Definition content_prefix (msg : message) : list string :=
  if truthy (content msg) then [content_str (content msg)] else [].

(** ** [MCPClient.__init__], [is_authenticated], [get_auth_type] (lines 18-38, 203-209) *)

(** The process environment [os.environ]: string keys and values. *)
Definition environ := list (string * string).

(** [os.getenv(k)] *)
Fixpoint getenv (env : environ) (k : string) : option string :=
  match env with
  | [] => None
  | (k', v) :: rest => if String.eqb k k' then Some v else getenv rest k
  end.

(** [env[k] = v] on a dict: an existing key keeps its place, a new one is
    appended. *)
Fixpoint env_set (env : environ) (k v : string) : environ :=
  match env with
  | [] => [(k, v)]
  | (k', v') :: rest => if String.eqb k k' then (k, v) :: rest else (k', v') :: env_set rest k v
  end.

(** Python's [a or b] on optional strings. *)
Definition py_or (a b : option string) : option string := if truthy a then a else b.

(** The fields of an [MCPClient]. *)
Record mcp_client := mk_mcp_client {
  mc_session : option session;
  mc_model : string;
  mc_api_key : option string;
  mc_token : option string;
  mc_auth_type : option string;
  mc_auth_value : option string
}.

(** Lines 18-38, in the environment [env]. *)
Definition mcp_client_init (env : environ) (model : string) (api_key token : option string)
    : mcp_client :=
  let api_key := py_or api_key (getenv env "MCP_API_KEY") in
  let token := py_or (py_or token (getenv env "MCP_TOKEN")) (getenv env "MCP_BEARER_TOKEN") in
  let '(auth_type, auth_value) :=
    if truthy api_key then (Some "api_key", api_key)
    else if truthy token then (Some "bearer", token)
    else (None, None) in
  mk_mcp_client None model api_key token auth_type auth_value.

Definition is_authenticated (c : mcp_client) : bool :=
  match mc_auth_type c with Some _ => true | None => false end.

Definition get_auth_type (c : mcp_client) : option string := mc_auth_type c.

(** The view of an [MCPClient] that [process_query] and [chat_loop] use. *)
Definition as_client (c : mcp_client) : client := mk_client (mc_session c) (mc_model c).

Definition set_session (c : mcp_client) (s : option session) : mcp_client :=
  mk_mcp_client s (mc_model c) (mc_api_key c) (mc_token c) (mc_auth_type c) (mc_auth_value c).

(** ** [connect_to_server] (lines 41-109) *)

(** The parts of [os] and [sys] the code uses: [os.path.abspath],
    [os.path.exists], [os.environ] and [sys.executable]. *)
Record os_state := mk_os_state {
  os_abspath : string -> string;
  os_path_exists : string -> bool;
  os_environ : environ;
  sys_executable : string
}.

(** [os.path.isabs] (POSIX) and [str.endswith]. *)
Definition isabs (p : string) : bool := String.prefix "/" p.

Definition endswith (suffix s : string) : bool := String.prefix (rev_string suffix) (rev_string s).

(** [needle in hay] on strings. *)
Fixpoint contains (needle hay : string) : bool :=
  String.prefix needle hay ||
  match hay with EmptyString => false | String _ rest => contains needle rest end.

(** [stdio_client(params)] entered as a context and wrapped in a
    [ClientSession] (raising when the server cannot be started), and
    [session.initialize()]. *)
Record launcher := mk_launcher {
  stdio_connect : string -> list string -> environ -> result session;
  initialize : session -> result unit
}.

Inductive conn_event : Type :=
| CPrint (s : string)
| CTraceback
| CSpawn (command : string) (args : list string) (env : environ)
| CInitialize
| CListTools.

Definition tool_names (tools : list tool_dump) : pyval :=
  PList (map (fun t => dict_get t "name" PNone) tools).

(** Lines 101-104: the exception [list_tools] raised, as it leaves the
    inner [try]. *)
Definition classify_auth_error (auth_error : exc) : exc :=
  let msg := exc_msg auth_error in
  if contains "auth" (lower msg) || contains "unauthorized" (lower msg)
  then mk_exc "RuntimeError" ("Authentication failed: " ++ msg ++ ". Please check your credentials.")
  else auth_error.

(** Lines 83-104, the body of the outer [try]: the events, the session
    assigned to [self.session] if any, and the outcome. *)
Definition connect_body (ln : launcher) (c : mcp_client) (command : string) (path : string)
    (server_env : environ) : list conn_event * option session * result unit :=
  match stdio_connect ln command [path] server_env with
  | Raise e => ([CSpawn command [path] server_env], None, Raise e)
  | Ok s =>
      let log1 := [CSpawn command [path] server_env; CPrint "Initializing session..."; CInitialize] in
      match initialize ln s with
      | Raise e => (log1, Some s, Raise e)
      | Ok _ =>
          let log2 := app log1 [CPrint "Fetching available tools..."; CListTools] in
          match list_tools s with
          | Ok tools =>
              (app log2
                 (CPrint "Session initialized successfully" ::
                  app (match mc_auth_type c with
                       | Some t => [CPrint ("Authentication verified (" ++ t ++ ")")]
                       | None => []
                       end)
                      [CPrint (nl ++ "Connected to server with tools: " ++ py_repr (tool_names tools))]),
               Some s, Ok tt)
          | Raise auth_error => (log2, Some s, Raise (classify_auth_error auth_error))
          end
      end
  end.

(** Lines 48-49: the script path made absolute. *)
Definition resolve_path (os : os_state) (p : string) : string :=
  if isabs p then p else os_abspath os p.

(** Lines 61-71: the environment of the server process and the message
    printed about the authentication. *)
Definition server_environment (os : os_state) (c : mcp_client) : environ * string :=
  let value := content_str (mc_auth_value c) in
  match mc_auth_type c with
  | Some "api_key" => (env_set (os_environ os) "MCP_API_KEY" value, "Using API key authentication")
  | Some "bearer" =>
      (env_set (env_set (os_environ os) "MCP_TOKEN" value) "MCP_BEARER_TOKEN" value,
       "Using Bearer token authentication")
  | _ => (os_environ os, "No authentication configured - connecting without authentication")
  end.

(** Line 74: the interpreter of the server. *)
Definition server_command (os : os_state) (path : string) : string :=
  if endswith ".py" path then sys_executable os else "node".

Definition connect_to_server (os : os_state) (ln : launcher) (c : mcp_client)
    (server_script_path : string) : list conn_event * mcp_client * result unit :=
  let server_script_path := resolve_path os server_script_path in
  if negb (os_path_exists os server_script_path)
  then ([], c, Raise (mk_exc "FileNotFoundError" ("Server script not found: " ++ server_script_path)))
  else
    let is_python := endswith ".py" server_script_path in
    let is_js := endswith ".js" server_script_path in
    if negb (is_python || is_js)
    then ([], c, Raise (mk_exc "ValueError" "Server script must be a .py or .js file"))
    else
      let '(server_env, auth_msg) := server_environment os c in
      let command := server_command os server_script_path in
      let log0 := [CPrint auth_msg; CPrint ("Connecting to MCP server: " ++ server_script_path)] in
      let '(log, assigned, r) := connect_body ln c command server_script_path server_env in
      let c' := match assigned with Some s => set_session c (Some s) | None => c end in
      match r with
      | Ok _ => (app log0 log, c', Ok tt)
      | Raise e =>
          (app log0 (app log [CPrint ("Error connecting to server: " ++ exc_msg e); CTraceback]),
           c', Raise e)
      end.

(** ** [main] (lines 216-235) *)

(** [os.path.dirname] and [os.path.join] (POSIX). *)
Definition is_slash (a : ascii) : bool := Ascii.eqb a "/".

Fixpoint drop_while (f : ascii -> bool) (l : list ascii) : list ascii :=
  match l with
  | [] => []
  | a :: rest => if f a then drop_while f rest else l
  end.

Definition dirname (p : string) : string :=
  let r := drop_while (fun a => negb (is_slash a)) (rev (list_ascii_of_string p)) in
  let head := rev r in
  if negb (forallb is_slash head) then string_of_list_ascii (rev (drop_while is_slash r))
  else string_of_list_ascii head.

Definition path_join (a b : string) : string :=
  if isabs b then b
  else if String.eqb a "" || endswith "/" a then a ++ b
  else a ++ "/" ++ b.

Inductive main_event : Type :=
| MConnect (e : conn_event)
| MChat (e : event)
| MPrint (s : string)
| MTraceback
| MCleanup.

(** [main()]: [argv] is [sys.argv], [file] is [__file__], [aclose] the
    outcome of [exit_stack.aclose()]; the chat loop runs [fuel] passes at
    most.  The result is [Ok true] when [main] returned, [Ok false] while the
    chat loop is still running, [Raise e] when [e] leaves [main]. *)
Definition main (os : os_state) (ln : launcher) (rt : runtime) (aclose : result unit)
    (file : string) (argv : list string) (inp : list string) (fuel : nat)
    : list main_event * result bool :=
  let '(server_path, log0) :=
    match argv with
    | _ :: arg1 :: _ => (arg1, [])
    | _ =>
        let p := path_join (path_join (dirname (dirname file)) "my-first-mcp-server") "main.py" in
        (p, [MPrint ("Using default server path: " ++ p)])
    end in
  let client := mcp_client_init (os_environ os) "llama3.2" None None in
  let '(clog, client', r) := connect_to_server os ln client server_path in
  let log1 := app log0 (map MConnect clog) in
  let handler e := [MPrint ("Error: " ++ exc_msg e); MTraceback] in
  let finally log :=
    match aclose with
    | Ok _ => (app log [MCleanup], Ok true)
    | Raise e => (app log [MCleanup], Raise e)
    end in
  match r with
  | Raise e => finally (app log1 (handler e))
  | Ok _ =>
      let '(chlog, ending) := chat_loop fuel rt (as_client client') inp in
      let log2 := app log1 (map MChat chlog) in
      match ending with
      | Exited _ => finally log2
      | Propagated e => finally (app log2 (handler e))
      | Running => (log2, Ok false)
      end
  end.

(** ** Sample collaborators, after the doubles of test_client.py *)

Definition dq : string := String "034" EmptyString.

Definition text_content (t : string) : pyval :=
  PObj "TextContent" [("type", PStr "text"); ("text", PStr t)].

Definition call_tool_result (content : pyval) : pyval :=
  PObj "CallToolResult" [("content", content); ("isError", PBool false)].

Definition leave_tool : tool_dump :=
  [("name", PStr "get_leave_balance");
   ("description", PStr "Get leave balance");
   ("inputSchema", PDict [("type", PStr "object");
                          ("properties", PDict [("employee_id", PDict [("type", PStr "string")])])])].

Definition failing_tool : tool_dump :=
  [("name", PStr "failing_tool"); ("description", PStr "Failing tool"); ("inputSchema", PDict [])].

Definition leave_session : session :=
  mk_session (Ok [leave_tool])
    (fun name _ =>
       if String.eqb name "get_leave_balance"
       then Ok (call_tool_result (PList [text_content "E001 has 18 leave days remaining."]))
       else Raise (mk_exc "Exception" "Unknown tool")).

Definition failing_session : session :=
  mk_session (Ok [failing_tool]) (fun _ _ => Raise (mk_exc "Exception" "Tool execution failed")).

(** A session whose tool answers with the given result. *)
Definition answering_session (r : pyval) : session :=
  mk_session (Ok [leave_tool]) (fun _ _ => Ok r).

Definition unreachable_session : session :=
  mk_session (Raise (mk_exc "ConnectionError" "Connection closed")) (fun _ _ => Ok PNone).

Fixpoint ones (n : nat) : string :=
  match n with O => EmptyString | S n' => String "1" (ones n') end.

(** What [json.loads("1" * 5000)] raises (Python 3.11 and later). *)
Definition int_digits_error : exc :=
  mk_exc "ValueError"
    ("Exceeds the limit (4300 digits) for integer string conversion: value has 5000 digits; "
     ++ "use sys.set_int_max_str_digits() to increase the limit").

Definition json_decode_error : exc :=
  mk_exc "JSONDecodeError" "Expecting value: line 1 column 1 (char 0)".

(** [json.loads] on the texts the samples decode: [{"param": "value"}],
    and the integer literal of 5000 digits, which raises [ValueError];
    every other text is a decode error. *)
Definition sample_json_loads (s : string) : result pyval :=
  if String.eqb s ("{" ++ dq ++ "param" ++ dq ++ ": " ++ dq ++ "value" ++ dq ++ "}")
  then Ok (PDict [("param", PStr "value")])
  else if String.eqb s (ones 5000) then Raise int_digits_error
  else Raise json_decode_error.

(** An Ollama whose reply is always [msg]. *)
Definition replying (msg : message) : runtime :=
  mk_runtime (fun _ _ _ => Ok msg) sample_json_loads.

Definition ollama_down : runtime :=
  mk_runtime (fun _ _ _ => Raise (mk_exc "ConnectionError" "Failed to connect to Ollama")) sample_json_loads.

Definition leave_message : message :=
  mk_message (Some "Checking leave balance...")
    (Some [mk_tool_call (Some "get_leave_balance") (Some (PDict [("employee_id", PStr "E001")]))]).

Definition failing_message : message :=
  mk_message (Some "") (Some [mk_tool_call (Some "failing_tool") (Some (PDict []))]).

(** An image block of a tool result: it has no [text] attribute. *)
Definition image_content : pyval :=
  PObj "ImageContent" [("type", PStr "image"); ("data", PStr "iVBORw0KGgo="); ("mimeType", PStr "image/png")].

(** An MCP tool whose server gave it no description. *)
Definition undescribed_tool : mcp_tool :=
  mk_mcp_tool "get_leave_balance" None [("type", PStr "object")].

Definition upper_ascii (a : ascii) : ascii :=
  let n := nat_of_ascii a in
  if Nat.leb 97 n && Nat.leb n 122 then ascii_of_nat (n - 32) else a.

(** All the letter casings of a word. *)
Fixpoint casings (s : string) : list string :=
  match s with
  | EmptyString => [EmptyString]
  | String a rest =>
      flat_map (fun t => if Ascii.eqb (upper_ascii a) a then [String a t]
                         else [String a t; String (upper_ascii a) t]) (casings rest)
  end.

(** An environment with an API key and a token. *)
Definition sample_env : environ :=
  [("PATH", "/usr/bin"); ("MCP_API_KEY", "env-key"); ("MCP_TOKEN", "env-token")].

(** An operating system with the scripts [server.py] and [server.PY] in
    the working directory [/home/user]. *)
Definition sample_os : os_state :=
  mk_os_state (fun p => "/home/user/" ++ p)
    (fun p => String.eqb p "/home/user/server.py" || String.eqb p "/home/user/server.PY")
    sample_env "/usr/bin/python3".

(** A client built with no credential in an empty environment. *)
Definition no_auth_client : mcp_client := mcp_client_init [] "llama3.2" None None.

Definition unauthorized_session : session :=
  mk_session (Raise (mk_exc "McpError" "401 Unauthorized")) (fun _ _ => Ok PNone).

Definition good_launcher : launcher := mk_launcher (fun _ _ _ => Ok leave_session) (fun _ => Ok tt).

Definition auth_fail_launcher : launcher :=
  mk_launcher (fun _ _ _ => Ok unauthorized_session) (fun _ => Ok tt).

Definition init_fail_launcher : launcher :=
  mk_launcher (fun _ _ _ => Ok leave_session) (fun _ => Raise (mk_exc "McpError" "Connection closed")).



(** A tool call whose arguments are a JSON integer of 5000 digits. *)
Definition big_int_call : tool_call :=
  mk_tool_call (Some "get_leave_balance") (Some (PStr (ones 5000))).

(** A reply with a well-formed tool call followed by [big_int_call]. *)
Definition big_int_message : message :=
  mk_message (Some "Checking...")
    (Some [mk_tool_call (Some "get_leave_balance") (Some (PDict [("employee_id", PStr "E001")]));
           big_int_call]).

Definition with_session (s : session) : client := mk_client (Some s) "llama3.2".

Definition no_session : client := mk_client None "llama3.2".

(** ** Lemmas about the per-call body and the tool-call loop *)

Lemma call_event_ok : forall rt tc a,
  parse_arguments rt (raw_arguments_of tc) = Ok a -> call_event rt tc = EvCallTool (name_of tc) a.
Proof. intros rt tc a H. unfold call_event. rewrite H. reflexivity. Qed.

Lemma call_one_success_line : forall rt s tc a r t,
  parse_arguments rt (raw_arguments_of tc) = Ok a ->
  call_tool s (name_of tc) a = Ok r ->
  extract_result_text r = Ok t ->
  call_one rt s tc = ([call_event rt tc], Ok ("Tool '" ++ name_of tc ++ "' result: " ++ t)).
Proof.
  intros rt s tc a r t Hp Hcall Hext. rewrite (call_event_ok rt tc a Hp).
  unfold call_one, try_except, bind, perform, lift, ret. rewrite Hp, Hcall, Hext. reflexivity.
Qed.

Lemma call_one_error_line : forall rt s tc a e,
  parse_arguments rt (raw_arguments_of tc) = Ok a ->
  (call_tool s (name_of tc) a = Raise e \/
   exists r, call_tool s (name_of tc) a = Ok r /\ extract_result_text r = Raise e) ->
  call_one rt s tc =
    ([call_event rt tc], Ok ("Error calling tool '" ++ name_of tc ++ "': " ++ exc_msg e)).
Proof.
  intros rt s tc a e Hp [Hcall | [r [Hcall Hext]]]; rewrite (call_event_ok rt tc a Hp);
    unfold call_one, try_except, bind, perform, lift, ret; rewrite Hp.
  - rewrite Hcall. reflexivity.
  - rewrite Hcall, Hext. reflexivity.
Qed.

(** An exception of the normalisation leaves the body before the call. *)
Lemma call_one_parse_error : forall rt s tc e,
  parse_arguments rt (raw_arguments_of tc) = Raise e -> call_one rt s tc = ([], Raise e).
Proof. intros rt s tc e Hp. unfold call_one, bind, lift. rewrite Hp. reflexivity. Qed.

Lemma parse_arguments_raise : forall rt raw e,
  parse_arguments rt raw = Raise e ->
  exists str, raw = PStr str /\ json_loads rt str = Raise e /\ exc_type e <> "JSONDecodeError".
Proof.
  intros rt raw e H. destruct raw; try discriminate.
  simpl in H. destruct (json_loads rt s) as [v | e'] eqn:Hj; [discriminate |].
  unfold is_json_decode_error in H.
  destruct (String.eqb (exc_type e') "JSONDecodeError") eqn:Hd; [discriminate |].
  injection H as ->. exists s. split; [reflexivity | split; [exact Hj |]].
  apply String.eqb_neq. exact Hd.
Qed.

(** Once the arguments normalised, the body raises nothing and calls the
    tool exactly once. *)
Lemma call_one_total : forall rt s tc a,
  parse_arguments rt (raw_arguments_of tc) = Ok a ->
  exists line, call_one rt s tc = ([call_event rt tc], Ok line).
Proof.
  intros rt s tc a Hp.
  destruct (call_tool s (name_of tc) a) as [r | e] eqn:Hcall.
  - destruct (extract_result_text r) as [t | e] eqn:Hext.
    + eexists. apply (call_one_success_line rt s tc a r t Hp Hcall Hext).
    + eexists. apply (call_one_error_line rt s tc a e Hp). right. exists r. split; assumption.
  - eexists. apply (call_one_error_line rt s tc a e Hp). left. assumption.
Qed.

Lemma call_one_line_nonempty : forall rt s tc evs line,
  call_one rt s tc = (evs, Ok line) -> line <> "".
Proof.
  intros rt s tc evs line H.
  destruct (parse_arguments rt (raw_arguments_of tc)) as [a | e] eqn:Hp.
  2:{ rewrite (call_one_parse_error rt s tc e Hp) in H. discriminate. }
  destruct (call_tool s (name_of tc) a) as [r | e] eqn:Hcall.
  - destruct (extract_result_text r) as [t | e] eqn:Hext.
    + rewrite (call_one_success_line rt s tc a r t Hp Hcall Hext) in H.
      injection H as _ <-. discriminate.
    + rewrite (call_one_error_line rt s tc a e Hp (or_intror (ex_intro _ r (conj Hcall Hext)))) in H.
      injection H as _ <-. discriminate.
  - rewrite (call_one_error_line rt s tc a e Hp (or_introl Hcall)) in H.
    injection H as _ <-. discriminate.
Qed.

Lemma arguments_normalise_ok : forall rt tc,
  arguments_normalise rt tc = true -> exists a, parse_arguments rt (raw_arguments_of tc) = Ok a.
Proof.
  intros rt tc H. unfold arguments_normalise in H.
  destruct (parse_arguments rt (raw_arguments_of tc)) as [a | e]; [exists a; reflexivity | discriminate].
Qed.


(** The tool-call loop either normalises every request, calling each tool
    once and collecting one line per request, or stops at the first request
    whose normalisation raises, after the calls before it. *)
Lemma run_tool_calls_spec : forall rt s tcs acc,
  (Forall (fun tc => arguments_normalise rt tc = true) tcs /\
   exists outs,
     run_tool_calls rt s tcs acc = (map (call_event rt) tcs, Ok (app acc outs)) /\
     Forall2 (fun tc o => snd (call_one rt s tc) = Ok o) tcs outs) \/
  (exists pre tc post e,
     tcs = app pre (tc :: post) /\
     Forall (fun tc => arguments_normalise rt tc = true) pre /\
     parse_arguments rt (raw_arguments_of tc) = Raise e /\
     run_tool_calls rt s tcs acc = (map (call_event rt) pre, Raise e)).
Proof.
  intros rt s tcs. induction tcs as [| tc rest IH]; intros acc.
  - left. split; [constructor |]. exists []. rewrite app_nil_r. split; [reflexivity | constructor].
  - destruct (parse_arguments rt (raw_arguments_of tc)) as [a | e] eqn:Hp.
    + assert (Hok : arguments_normalise rt tc = true) by (unfold arguments_normalise; rewrite Hp; reflexivity).
      destruct (call_one_total rt s tc a Hp) as [line Hline].
      destruct (IH (app acc [line])) as [[Hall [outs [Hrun Hall2]]] | [pre [x [post [e [Heq [Hpre [Hx Hrun]]]]]]]].
      * left. split; [constructor; assumption |].
        exists (line :: outs). split.
        -- simpl. unfold bind. rewrite Hline, Hrun. rewrite <- app_assoc. reflexivity.
        -- constructor; [rewrite Hline; reflexivity | exact Hall2].
      * right. exists (tc :: pre), x, post, e. split; [rewrite Heq; reflexivity |].
        split; [constructor; assumption | split; [exact Hx |]].
        simpl. unfold bind. rewrite Hline, Hrun. reflexivity.
    + right. exists [], tc, rest, e. split; [reflexivity | split; [constructor | split; [exact Hp |]]].
      simpl. unfold bind. rewrite (call_one_parse_error rt s tc e Hp). reflexivity.
Qed.


(** [process_query] once the session, the tool listing and the model
    answered: either every request normalises, and it returns the composed
    text after one call per request, or the first request whose
    normalisation raises makes it raise, after the calls before it. *)
Lemma process_query_outcome : forall rt c q s tl msg,
  client_session c = Some s ->
  list_tools s = Ok tl ->
  ollama_chat rt (client_model c) (user_messages q) (tools_argument (map to_function_def tl)) = Ok msg ->
  (Forall (fun tc => arguments_normalise rt tc = true) (tool_calls_list msg) /\
   exists outs,
     process_query rt c q =
       (EvListTools :: EvChat (client_model c) (user_messages q) (tools_argument (map to_function_def tl))
          :: map (call_event rt) (tool_calls_list msg),
        Ok (String.concat nl (app (content_prefix msg) outs))) /\
     Forall2 (fun tc o => snd (call_one rt s tc) = Ok o) (tool_calls_list msg) outs) \/
  (exists pre tc post e,
     tool_calls_list msg = app pre (tc :: post) /\
     Forall (fun tc => arguments_normalise rt tc = true) pre /\
     parse_arguments rt (raw_arguments_of tc) = Raise e /\
     process_query rt c q =
       (EvListTools :: EvChat (client_model c) (user_messages q) (tools_argument (map to_function_def tl))
          :: map (call_event rt) pre,
        Raise e)).
Proof.
  intros rt c q s tl msg Hs Hl Hc.
  unfold process_query. rewrite Hs. unfold bind, perform. rewrite Hl, Hc.
  unfold tool_calls_list, content_prefix.
  destruct (tool_calls msg) as [[| tc rest] |] eqn:Htc.
  - left. split; [constructor |]. exists []. split; [| constructor].
    destruct (truthy (content msg)); reflexivity.
  - destruct (run_tool_calls_spec rt s (tc :: rest) [])
      as [[Hall [outs [Hrun Hall2]]] | [pre [x [post [e [Heq [Hpre [Hx Hrun]]]]]]]].
    + left. split; [exact Hall |]. exists outs. split; [| exact Hall2].
      rewrite Hrun. unfold ret. simpl. rewrite app_nil_r.
      destruct (truthy (content msg)); reflexivity.
    + right. exists pre, x, post, e. split; [exact Heq | split; [exact Hpre | split; [exact Hx |]]].
      rewrite Hrun. reflexivity.
  - left. split; [constructor |]. exists []. split; [| constructor].
    destruct (truthy (content msg)); reflexivity.
Qed.



Lemma concat_head_nonempty : forall sep x l, x <> "" -> String.concat sep (x :: l) <> "".
Proof.
  intros sep x l Hx. destruct l as [| y l]; simpl; [exact Hx |].
  destruct x; [congruence | discriminate].
Qed.

Lemma truthy_nonempty : forall o, truthy o = true -> content_str o <> "".
Proof.
  intros [str |] H; simpl in *; [| discriminate].
  intros ->. discriminate.
Qed.

Lemma concat_nonempty_lines : forall sep outs,
  Forall (fun o => o <> "") outs -> String.concat sep outs = "" -> outs = [].
Proof.
  intros sep [| o outs] Hall H; [reflexivity |].
  inversion Hall; subst. exfalso. exact (concat_head_nonempty sep o outs H2 H).
Qed.

Lemma call_lines_nonempty : forall rt s tcs outs,
  Forall2 (fun tc o => snd (call_one rt s tc) = Ok o) tcs outs -> Forall (fun o => o <> "") outs.
Proof.
  intros rt s tcs outs H. induction H as [| tc o tcs outs Ho _ IH]; constructor; [| exact IH].
  destruct (call_one rt s tc) as [evs r] eqn:Hc. simpl in Ho. subst r.
  exact (call_one_line_nonempty rt s tc evs o Hc).
Qed.

(** ** The claims *)

(** C1: when the transport's [call_tool] raises (or extracting the text of
    its result raises), the per-call body produces the line
    ["Error calling tool '<name>': <str(e)>"] and raises nothing; and
    whenever [process_query] raises, the exception comes from the missing
    session, [list_tools], the model call, or [json.loads] on the text
    arguments of a tool call (an exception other than
    [json.JSONDecodeError]), never from [call_tool] or the extraction of
    its result. *)
Theorem tool_call_fault_becomes_error_line :
  (forall rt s tc a e,
     parse_arguments rt (raw_arguments_of tc) = Ok a ->
     call_tool s (name_of tc) a = Raise e ->
     call_one rt s tc =
       ([call_event rt tc], Ok ("Error calling tool '" ++ name_of tc ++ "': " ++ exc_msg e))) /\
  (forall rt s tc a r e,
     parse_arguments rt (raw_arguments_of tc) = Ok a ->
     call_tool s (name_of tc) a = Ok r ->
     extract_result_text r = Raise e ->
     call_one rt s tc =
       ([call_event rt tc], Ok ("Error calling tool '" ++ name_of tc ++ "': " ++ exc_msg e))) /\
  (forall rt c q evs e,
     process_query rt c q = (evs, Raise e) ->
     (client_session c = None /\ e = session_error) \/
     exists s, client_session c = Some s /\
       (list_tools s = Raise e \/
        exists tl, list_tools s = Ok tl /\
          (ollama_chat rt (client_model c) (user_messages q) (tools_argument (map to_function_def tl))
           = Raise e \/
           exists msg tc str,
             ollama_chat rt (client_model c) (user_messages q) (tools_argument (map to_function_def tl))
             = Ok msg /\
             In tc (tool_calls_list msg) /\ raw_arguments_of tc = PStr str /\
             json_loads rt str = Raise e /\ exc_type e <> "JSONDecodeError"))).
Proof.
  split; [| split].
  - intros rt s tc a e Hp H. apply (call_one_error_line rt s tc a e Hp). left. exact H.
  - intros rt s tc a r e Hp H1 H2. apply (call_one_error_line rt s tc a e Hp).
    right. exists r. split; assumption.
  - intros rt c q evs e H.
    destruct (client_session c) as [s |] eqn:Hs.
    + right. exists s. split; [reflexivity |].
      destruct (list_tools s) as [tl | e'] eqn:Hl.
      * right. exists tl. split; [reflexivity |].
        destruct (ollama_chat rt (client_model c) (user_messages q)
                    (tools_argument (map to_function_def tl))) as [msg | e'] eqn:Hc.
        -- right.
           destruct (process_query_outcome rt c q s tl msg Hs Hl Hc)
             as [[_ [outs [Hrun _]]] | [pre [tc [post [e' [Heq [_ [Hp Hrun]]]]]]]];
             rewrite Hrun in H; [discriminate |].
           injection H as _ <-.
           destruct (parse_arguments_raise rt _ e' Hp) as [str [Hraw [Hj Hty]]].
           exists msg, tc, str. split; [reflexivity |]. split.
           ++ rewrite Heq. apply in_or_app. right. left. reflexivity.
           ++ split; [exact Hraw | split; assumption].
        -- left. unfold process_query in H. rewrite Hs in H.
           unfold bind, perform in H. rewrite Hl, Hc in H. simpl in H.
           injection H as _ ->. reflexivity.
      * left. unfold process_query in H. rewrite Hs in H.
        unfold bind, perform in H. rewrite Hl in H.
        injection H as _ ->. reflexivity.
    + left. split; [reflexivity |].
      unfold process_query in H. rewrite Hs in H. injection H as _ ->. reflexivity.
Qed.

Lemma tool_call_fault_becomes_error_line_witness :
  call_one (replying failing_message) failing_session (mk_tool_call (Some "failing_tool") (Some (PDict [])))
    = ([EvCallTool "failing_tool" (PDict [])],
       Ok "Error calling tool 'failing_tool': Tool execution failed") /\
  call_one (replying failing_message) (answering_session (call_tool_result (PStr "abc")))
    (mk_tool_call (Some "get_leave_balance") (Some (PDict [])))
    = ([EvCallTool "get_leave_balance" (PDict [])],
       Ok "Error calling tool 'get_leave_balance': 'str' object has no attribute 'text'") /\
  ((client_session (with_session leave_session) = None /\ int_digits_error = session_error) \/
   exists s, client_session (with_session leave_session) = Some s /\
     (list_tools s = Raise int_digits_error \/
      exists tl, list_tools s = Ok tl /\
        (ollama_chat (replying big_int_message) "llama3.2" (user_messages "hi")
           (tools_argument (map to_function_def tl)) = Raise int_digits_error \/
         exists msg tc str,
           ollama_chat (replying big_int_message) "llama3.2" (user_messages "hi")
             (tools_argument (map to_function_def tl)) = Ok msg /\
           In tc (tool_calls_list msg) /\ raw_arguments_of tc = PStr str /\
           json_loads (replying big_int_message) str = Raise int_digits_error /\
           exc_type int_digits_error <> "JSONDecodeError"))).
Proof.
  split; [| split].
  - exact (proj1 tool_call_fault_becomes_error_line (replying failing_message) failing_session
             (mk_tool_call (Some "failing_tool") (Some (PDict []))) (PDict [])
             (mk_exc "Exception" "Tool execution failed") eq_refl eq_refl).
  - exact (proj1 (proj2 tool_call_fault_becomes_error_line) (replying failing_message)
             (answering_session (call_tool_result (PStr "abc")))
             (mk_tool_call (Some "get_leave_balance") (Some (PDict []))) (PDict [])
             (call_tool_result (PStr "abc"))
             (mk_exc "AttributeError" "'str' object has no attribute 'text'") eq_refl eq_refl eq_refl).
  - apply (proj2 (proj2 tool_call_fault_becomes_error_line) (replying big_int_message)
             (with_session leave_session) "hi"
             [EvListTools; EvChat "llama3.2" (user_messages "hi") (Some [to_function_def leave_tool]);
              EvCallTool "get_leave_balance" (PDict [("employee_id", PStr "E001")])]).
    vm_compute. reflexivity.
Defined.




(** C3: once the model has answered, either the text arguments of some tool
    call make [json.loads] raise (and [process_query] raises that
    exception), or the reply of [process_query] is the content (when it is
    non-empty) followed by the line of every tool call, in the order of the
    calls in the reply, joined by newlines; with no content and no tool
    call it is the empty string; so the reply is empty only when the
    content is empty and there is no tool call. *)
Theorem final_reply_composition : forall rt c q s tl msg,
  client_session c = Some s ->
  list_tools s = Ok tl ->
  ollama_chat rt (client_model c) (user_messages q) (tools_argument (map to_function_def tl)) = Ok msg ->
  (exists pre tc post e,
     tool_calls_list msg = app pre (tc :: post) /\
     parse_arguments rt (raw_arguments_of tc) = Raise e /\
     snd (process_query rt c q) = Raise e) \/
  exists text outs,
    snd (process_query rt c q) = Ok text /\
    Forall2 (fun tc o => snd (call_one rt s tc) = Ok o) (tool_calls_list msg) outs /\
    text = (if truthy (content msg)
            then String.concat nl (content_str (content msg) :: outs)
            else String.concat nl outs) /\
    (truthy (content msg) = false -> tool_calls_list msg = [] -> text = "") /\
    (text = "" -> truthy (content msg) = false /\ tool_calls_list msg = []).
Proof.
  intros rt c q s tl msg Hs Hl Hc.
  destruct (process_query_outcome rt c q s tl msg Hs Hl Hc)
    as [[_ [outs [Hrun Hall]]] | [pre [tc [post [e [Heq [_ [Hp Hrun]]]]]]]].
  2:{ left. exists pre, tc, post, e. split; [exact Heq | split; [exact Hp |]]. rewrite Hrun. reflexivity. }
  right.
  exists (String.concat nl (app (content_prefix msg) outs)), outs.
  rewrite Hrun. split; [reflexivity |]. split; [exact Hall |].
  unfold content_prefix.
  assert (Hne := call_lines_nonempty rt s _ _ Hall).
  destruct (truthy (content msg)) eqn:Ht; simpl.
  - split; [reflexivity |]. split; [discriminate |].
    intros H. exfalso. exact (concat_head_nonempty nl _ outs (truthy_nonempty _ Ht) H).
  - split; [reflexivity |]. split.
    + intros _ Hnil. rewrite Hnil in Hall. inversion Hall. reflexivity.
    + intros H. split; [reflexivity |].
      pose proof (concat_nonempty_lines nl outs Hne H) as ->.
      inversion Hall. reflexivity.
Qed.

Lemma final_reply_composition_witness :
  snd (process_query (replying leave_message) (with_session leave_session) "Check leave balance for E001")
    = Ok ("Checking leave balance..." ++ nl ++
          "Tool 'get_leave_balance' result: E001 has 18 leave days remaining.") /\
  ((exists pre tc post e,
      tool_calls_list leave_message = app pre (tc :: post) /\
      parse_arguments (replying leave_message) (raw_arguments_of tc) = Raise e /\
      snd (process_query (replying leave_message) (with_session leave_session)
             "Check leave balance for E001") = Raise e) \/
   exists text outs,
    snd (process_query (replying leave_message) (with_session leave_session) "Check leave balance for E001")
      = Ok text /\
    Forall2 (fun tc o => snd (call_one (replying leave_message) leave_session tc) = Ok o)
      (tool_calls_list leave_message) outs /\
    text = (if truthy (content leave_message)
            then String.concat nl (content_str (content leave_message) :: outs)
            else String.concat nl outs) /\
    (truthy (content leave_message) = false -> tool_calls_list leave_message = [] -> text = "") /\
    (text = "" -> truthy (content leave_message) = false /\ tool_calls_list leave_message = [])).
Proof.
  split; [reflexivity |].
  exact (final_reply_composition (replying leave_message) (with_session leave_session)
           "Check leave balance for E001" leave_session [leave_tool] leave_message
           eq_refl eq_refl eq_refl).
Defined.




(** C8: an exception of [list_tools] or of the model call is not caught in
    [process_query]: it leaves it unchanged, after the events before it. *)
Theorem session_level_faults_propagate : forall rt c q s e,
  client_session c = Some s ->
  (list_tools s = Raise e -> process_query rt c q = ([EvListTools], Raise e)) /\
  (forall tl, list_tools s = Ok tl ->
     ollama_chat rt (client_model c) (user_messages q) (tools_argument (map to_function_def tl)) = Raise e ->
     process_query rt c q =
       ([EvListTools; EvChat (client_model c) (user_messages q) (tools_argument (map to_function_def tl))],
        Raise e)).
Proof.
  intros rt c q s e Hs. split.
  - intros Hl. unfold process_query. rewrite Hs. unfold bind, perform. rewrite Hl. reflexivity.
  - intros tl Hl Hc. unfold process_query. rewrite Hs. unfold bind, perform.
    rewrite Hl, Hc. reflexivity.
Qed.

Lemma session_level_faults_propagate_witness :
  process_query ollama_down (with_session unreachable_session) "q"
    = ([EvListTools], Raise (mk_exc "ConnectionError" "Connection closed")) /\
  process_query ollama_down (with_session leave_session) "q"
    = ([EvListTools; EvChat "llama3.2" (user_messages "q") (Some [to_function_def leave_tool])],
       Raise (mk_exc "ConnectionError" "Failed to connect to Ollama")).
Proof.
  split.
  - exact (proj1 (session_level_faults_propagate ollama_down (with_session unreachable_session) "q"
                    unreachable_session (mk_exc "ConnectionError" "Connection closed") eq_refl) eq_refl).
  - exact (proj2 (session_level_faults_propagate ollama_down (with_session leave_session) "q"
                    leave_session (mk_exc "ConnectionError" "Failed to connect to Ollama") eq_refl)
             [leave_tool] eq_refl eq_refl).
Defined.

(** C10: without a session [process_query] raises
    [RuntimeError("Session is not initialized. Call connect_to_server() first.")]
    before any other effect: no tool listing, model call or tool call. *)
Theorem process_query_requires_session : forall rt c q,
  client_session c = None ->
  process_query rt c q =
    ([], Raise (mk_exc "RuntimeError" "Session is not initialized. Call connect_to_server() first.")).
Proof.
  intros rt c q Hs. unfold process_query. rewrite Hs. reflexivity.
Qed.

Lemma process_query_requires_session_witness :
  process_query (replying leave_message) no_session "test query" =
    ([], Raise (mk_exc "RuntimeError" "Session is not initialized. Call connect_to_server() first.")).
Proof.
  exact (process_query_requires_session (replying leave_message) no_session "test query" eq_refl).
Defined.

(** C4 as the claim states it fails: a successful call whose first content
    block has no [text] (an image) gives the error line, not a
    ["Tool '<name>' result: ..."] line. *)
Lemma tool_result_text_extraction_counterexample :
  call_one (replying leave_message) (answering_session (call_tool_result (PList [image_content])))
    (mk_tool_call (Some "get_leave_balance") (Some (PDict [])))
  = ([EvCallTool "get_leave_balance" (PDict [])],
     Ok "Error calling tool 'get_leave_balance': 'ImageContent' object has no attribute 'text'") /\
  String.prefix "Tool 'get_leave_balance' result: "
    "Error calling tool 'get_leave_balance': 'ImageContent' object has no attribute 'text'" = false.
Proof. split; reflexivity. Qed.

(** C4 (amended): for a tool call whose [call_tool] returns [r]:
    - when [r] has a [content] attribute [c] that is iterable and non-empty,
      the text is [str(c[0].text)]; when [c[0]] or its [text] attribute does
      not exist, the outcome is the error line with that exception;
    - when [c] is not iterable or is empty, the text is [str(c)], the content
      field itself, not the whole result;
    - only when [r] has no [content] attribute is [str(r)] taken.
    A text is wrapped as ["Tool '<name>' result: <text>"]. *)
Theorem tool_result_text_extraction : forall rt s tc a r,
  parse_arguments rt (raw_arguments_of tc) = Ok a ->
  call_tool s (name_of tc) a = Ok r ->
  (forall cls attrs c first t,
     r = PObj cls attrs -> assoc "content" attrs = Some c ->
     has_iter c = true -> 0 < py_len c -> py_index0 c = Ok first -> get_text first = Ok t ->
     call_one rt s tc = ([call_event rt tc], Ok ("Tool '" ++ name_of tc ++ "' result: " ++ py_str t))) /\
  (forall cls attrs c e,
     r = PObj cls attrs -> assoc "content" attrs = Some c ->
     has_iter c = true -> 0 < py_len c ->
     (py_index0 c = Raise e \/ exists first, py_index0 c = Ok first /\ get_text first = Raise e) ->
     call_one rt s tc =
       ([call_event rt tc], Ok ("Error calling tool '" ++ name_of tc ++ "': " ++ exc_msg e))) /\
  (forall cls attrs c,
     r = PObj cls attrs -> assoc "content" attrs = Some c ->
     (has_iter c = false \/ py_len c = 0) ->
     call_one rt s tc = ([call_event rt tc], Ok ("Tool '" ++ name_of tc ++ "' result: " ++ py_str c))) /\
  ((forall cls attrs, r = PObj cls attrs -> assoc "content" attrs = None) ->
     call_one rt s tc = ([call_event rt tc], Ok ("Tool '" ++ name_of tc ++ "' result: " ++ py_str r))).
Proof.
  intros rt s tc a r Hp Hcall. split; [| split; [| split]].
  - intros cls attrs c first t -> Hc Hit Hlen Hidx Ht.
    apply (call_one_success_line rt s tc a _ _ Hp Hcall).
    simpl. rewrite Hc, Hit. apply Nat.ltb_lt in Hlen. rewrite Hlen. simpl.
    rewrite Hidx, Ht. reflexivity.
  - intros cls attrs c e -> Hc Hit Hlen Herr.
    apply (call_one_error_line rt s tc a e Hp). right. exists (PObj cls attrs). split; [exact Hcall |].
    simpl. rewrite Hc, Hit. apply Nat.ltb_lt in Hlen. rewrite Hlen. simpl.
    destruct Herr as [Hidx | [first [Hidx Ht]]]; rewrite Hidx; [| rewrite Ht]; reflexivity.
  - intros cls attrs c -> Hc Hshape.
    apply (call_one_success_line rt s tc a _ _ Hp Hcall).
    simpl. rewrite Hc.
    destruct Hshape as [Hit | Hlen]; [rewrite Hit | rewrite Hlen; rewrite andb_false_r]; reflexivity.
  - intros Hnone.
    apply (call_one_success_line rt s tc a _ _ Hp Hcall).
    destruct r as [| | | | | cls attrs]; try reflexivity.
    simpl. rewrite (Hnone cls attrs eq_refl). reflexivity.
Qed.

Lemma tool_result_text_extraction_witness :
  call_one (replying leave_message) (answering_session (call_tool_result PNone))
    (mk_tool_call (Some "get_leave_balance") (Some (PDict [])))
  = ([EvCallTool "get_leave_balance" (PDict [])], Ok "Tool 'get_leave_balance' result: None").
Proof.
  exact (proj1 (proj2 (proj2 (tool_result_text_extraction (replying leave_message)
           (answering_session (call_tool_result PNone))
           (mk_tool_call (Some "get_leave_balance") (Some (PDict []))) (PDict []) (call_tool_result PNone)
           eq_refl eq_refl)))
           "CallToolResult" [("content", PNone); ("isError", PBool false)] PNone
           eq_refl eq_refl (or_introl eq_refl)).
Defined.

(** C9: the adapter does not default a missing description to [""] for a
    tool as the MCP session returns it: [model_dump()] of an MCP [Tool]
    without description has the key [description] set to None, so
    [.get("description", "")] returns None and the function spec carries a
    null description. *)
Theorem function_def_of_undescribed_tool :
  to_function_def (mcp_tool_model_dump undescribed_tool) =
    PDict [("type", PStr "function");
           ("function", PDict [("name", PStr "get_leave_balance");
                               ("description", PNone);
                               ("parameters", PDict [("type", PStr "object")])])] /\
  PNone <> PStr "".
Proof. split; [reflexivity | discriminate]. Qed.

(** ** The chat loop *)

Lemma iteration_eof : forall rt c,
  iteration rt c [] = ([], ([EvPrint prompt; EvPrint (nl ++ "Error: " ++ exc_msg eof_error)], Ok Continue)).
Proof. reflexivity. Qed.

Lemma iteration_quit : forall rt c line rest,
  lower (strip line) = "quit" ->
  iteration rt c (line :: rest) = (rest, ([EvPrint prompt], Ok Break)).
Proof.
  intros rt c line rest H. unfold iteration, input, try_except, bind, perform.
  rewrite H. reflexivity.
Qed.

Lemma iteration_query : forall rt c line rest,
  lower (strip line) <> "quit" ->
  iteration rt c (line :: rest) =
    (rest,
     (EvPrint prompt ::
        app (fst (process_query rt c (strip line)))
            [EvPrint (match snd (process_query rt c (strip line)) with
                      | Ok response => nl ++ response
                      | Raise e => nl ++ "Error: " ++ exc_msg e
                      end)],
      Ok Continue)).
Proof.
  intros rt c line rest H. unfold iteration, input, try_except, bind, perform.
  apply String.eqb_neq in H. rewrite H.
  destruct (process_query rt c (strip line)) as [evs [response | e]]; reflexivity.
Qed.

Lemma iteration_total : forall rt c inp,
  exists rest evs ctl,
    iteration rt c inp = (rest, (evs, Ok ctl)) /\
    (ctl = Break <-> exists line, inp = line :: rest /\ lower (strip line) = "quit") /\
    (ctl = Continue ->
       (inp = [] /\ rest = []) \/ exists line, inp = line :: rest /\ lower (strip line) <> "quit").
Proof.
  intros rt c [| line rest].
  - do 3 eexists. split; [apply iteration_eof |]. split.
    + split; [discriminate | intros [line [Habs _]]; discriminate].
    + intros _. left. split; reflexivity.
  - destruct (String.eqb (lower (strip line)) "quit") eqn:Hq.
    + apply String.eqb_eq in Hq.
      do 3 eexists. split; [apply (iteration_quit rt c line rest Hq) |]. split.
      * split; [intros _; exists line; split; [reflexivity | exact Hq] | reflexivity].
      * discriminate.
    + apply String.eqb_neq in Hq.
      do 3 eexists. split; [apply (iteration_query rt c line rest Hq) |]. split.
      * split; [discriminate |].
        intros [line' [Heq Hq']]. injection Heq as <-. contradiction.
      * intros _. right. exists line. split; [reflexivity | exact Hq].
Qed.

Lemma while_loop_ends_by_quit : forall fuel rt c inp,
  match snd (while_loop fuel rt c inp) with
  | Propagated _ => False
  | Exited rest =>
      exists pre line, inp = app pre (line :: rest) /\ lower (strip line) = "quit" /\
                       Forall (fun l => lower (strip l) <> "quit") pre
  | Running => True
  end.
Proof.
  induction fuel as [| fuel IH]; intros rt c inp; simpl; [exact I |].
  destruct (iteration_total rt c inp) as [rest [evs [ctl [Hit [Hbrk Hcont]]]]].
  rewrite Hit. destruct ctl.
  - specialize (IH rt c rest).
    destruct (while_loop fuel rt c rest) as [evs' e'] eqn:Hw. simpl in *.
    destruct e' as [rest' | e'' | ]; try exact IH.
    destruct IH as [pre [line' [Hrest [Hq Hall]]]].
    destruct (Hcont eq_refl) as [[-> ->] | [line [-> Hnq]]].
    + exists pre, line'. split; [exact Hrest | split; assumption].
    + exists (line :: pre), line'. subst rest. split; [reflexivity |].
      split; [exact Hq | constructor; assumption].
  - simpl. destruct (proj1 Hbrk eq_refl) as [line [-> Hq]].
    exists [], line. split; [reflexivity | split; [exact Hq | constructor]].
Qed.

(** C6: a pass of the loop never lets an exception out: when
    [process_query] raises [e], the pass prints ["\nError: " ++ str(e)] and
    the loop goes on to the next prompt; a pass breaks the loop exactly when
    the line is the quit token and otherwise continues; and a run of the
    loop never ends by an exception, only by [break] on a quit line, the
    lines before it being no quit token. *)
Theorem chat_loop_survives_faults :
  (forall rt c line rest evs e,
     lower (strip line) <> "quit" ->
     process_query rt c (strip line) = (evs, Raise e) ->
     iteration rt c (line :: rest) =
       (rest, (EvPrint prompt :: app evs [EvPrint (nl ++ "Error: " ++ exc_msg e)], Ok Continue))) /\
  (forall rt c inp,
     exists rest evs ctl,
       iteration rt c inp = (rest, (evs, Ok ctl)) /\
       (ctl = Break <-> exists line, inp = line :: rest /\ lower (strip line) = "quit")) /\
  (forall fuel rt c inp,
     match snd (chat_loop fuel rt c inp) with
     | Propagated _ => False
     | Exited rest =>
         exists pre line, inp = app pre (line :: rest) /\ lower (strip line) = "quit" /\
                          Forall (fun l => lower (strip l) <> "quit") pre
     | Running => True
     end).
Proof.
  split; [| split].
  - intros rt c line rest evs e Hq Hp.
    rewrite (iteration_query rt c line rest Hq), Hp. reflexivity.
  - intros rt c inp.
    destruct (iteration_total rt c inp) as [rest [evs [ctl [Hit [Hbrk _]]]]].
    exists rest, evs, ctl. split; assumption.
  - intros fuel rt c inp. unfold chat_loop.
    pose proof (while_loop_ends_by_quit fuel rt c inp) as H.
    destruct (while_loop fuel rt c inp) as [evs e]. exact H.
Qed.

Lemma chat_loop_survives_faults_witness :
  iteration ollama_down (with_session leave_session) ("what is my balance" :: ["quit"]) =
    (["quit"],
     (EvPrint prompt ::
        app [EvListTools; EvChat "llama3.2" (user_messages "what is my balance")
                                 (Some [to_function_def leave_tool])]
            [EvPrint (nl ++ "Error: " ++ "Failed to connect to Ollama")],
      Ok Continue)) /\
  snd (chat_loop 3 ollama_down (with_session leave_session) ["what is my balance"; "quit"])
    = Exited [].
Proof.
  split; [| reflexivity].
  exact (proj1 chat_loop_survives_faults ollama_down (with_session leave_session)
           "what is my balance" ["quit"]
           [EvListTools; EvChat "llama3.2" (user_messages "what is my balance")
                                (Some [to_function_def leave_tool])]
           (mk_exc "ConnectionError" "Failed to connect to Ollama")
           ltac:(discriminate) eq_refl).
Defined.

(** C7: a pass reads one line, strips it and compares it lower-cased with
    ["quit"]: on a match it breaks with no call to [process_query]; any
    other line, a blank one included, is passed stripped to
    [process_query].  Every letter casing of ["quit"] (16 of them) is a
    match. *)
Theorem quit_token_check :
  (forall rt c line rest,
     lower (strip line) = "quit" ->
     iteration rt c (line :: rest) = (rest, ([EvPrint prompt], Ok Break))) /\
  (forall rt c line rest,
     lower (strip line) <> "quit" ->
     exists tail,
       iteration rt c (line :: rest) =
         (rest, (EvPrint prompt :: app (fst (process_query rt c (strip line))) tail, Ok Continue))) /\
  length (casings "quit") = 16 /\
  Forall (fun w => lower (strip w) = "quit") (casings "quit").
Proof.
  split; [| split; [| split]].
  - exact iteration_quit.
  - intros rt c line rest Hq. eexists. exact (iteration_query rt c line rest Hq).
  - reflexivity.
  - repeat constructor.
Qed.

Lemma quit_token_check_witness :
  iteration (replying leave_message) (with_session leave_session) [" QuIt "; "more"] =
    (["more"], ([EvPrint prompt], Ok Break)) /\
  strip "   " = "" /\
  exists tail,
    iteration (replying leave_message) (with_session leave_session) ["   "] =
      ([], (EvPrint prompt ::
              app (fst (process_query (replying leave_message) (with_session leave_session) "")) tail,
            Ok Continue)).
Proof.
  split; [| split; [reflexivity |]].
  - exact (proj1 quit_token_check (replying leave_message) (with_session leave_session)
             " QuIt " ["more"] eq_refl).
  - exact (proj1 (proj2 quit_token_check) (replying leave_message) (with_session leave_session)
             "   " [] ltac:(discriminate)).
Defined.

(** ** Further properties of the code *)

(** Rewrite with the truthiness hypotheses until the conditionals reduce. *)
Ltac rewrite_truthy :=
  repeat (cbn; match goal with H : truthy _ = _ |- _ => rewrite H end); cbn.

(** X1: an API key is taken from the explicit [api_key] argument, else from
    [MCP_API_KEY]; when either is set, authentication is [api_key] with that
    value, whatever tokens are given. *)
Theorem init_api_key_precedence : forall env model k t,
  (truthy k = true ->
     mc_auth_type (mcp_client_init env model k t) = Some "api_key" /\
     mc_auth_value (mcp_client_init env model k t) = k) /\
  (truthy k = false -> truthy (getenv env "MCP_API_KEY") = true ->
     mc_auth_type (mcp_client_init env model k t) = Some "api_key" /\
     mc_auth_value (mcp_client_init env model k t) = getenv env "MCP_API_KEY").
Proof.
  intros env model k t. unfold mcp_client_init, py_or. split.
  - intros Hk. rewrite Hk, Hk. split; reflexivity.
  - intros Hk He. rewrite Hk, He. split; reflexivity.
Qed.

Lemma init_api_key_precedence_witness :
  mc_auth_type (mcp_client_init sample_env "llama3.2" (Some "explicit-key") (Some "tok")) = Some "api_key" /\
  mc_auth_value (mcp_client_init sample_env "llama3.2" (Some "explicit-key") (Some "tok")) = Some "explicit-key" /\
  mc_auth_type (mcp_client_init sample_env "llama3.2" None (Some "tok")) = Some "api_key" /\
  mc_auth_value (mcp_client_init sample_env "llama3.2" None (Some "tok")) = Some "env-key".
Proof.
  destruct (proj1 (init_api_key_precedence sample_env "llama3.2" (Some "explicit-key") (Some "tok")) eq_refl)
    as [H1 H2].
  destruct (proj2 (init_api_key_precedence sample_env "llama3.2" None (Some "tok")) eq_refl eq_refl)
    as [H3 H4].
  split; [exact H1 | split; [exact H2 | split; [exact H3 | exact H4]]].
Defined.

(** X2: without an API key, a bearer token is taken from the explicit
    [token] argument, else from [MCP_TOKEN], else from [MCP_BEARER_TOKEN]. *)
Theorem init_token_precedence : forall env model k t,
  truthy k = false -> truthy (getenv env "MCP_API_KEY") = false ->
  (truthy t = true ->
     mc_auth_type (mcp_client_init env model k t) = Some "bearer" /\
     mc_auth_value (mcp_client_init env model k t) = t) /\
  (truthy t = false -> truthy (getenv env "MCP_TOKEN") = true ->
     mc_auth_type (mcp_client_init env model k t) = Some "bearer" /\
     mc_auth_value (mcp_client_init env model k t) = getenv env "MCP_TOKEN") /\
  (truthy t = false -> truthy (getenv env "MCP_TOKEN") = false ->
   truthy (getenv env "MCP_BEARER_TOKEN") = true ->
     mc_auth_type (mcp_client_init env model k t) = Some "bearer" /\
     mc_auth_value (mcp_client_init env model k t) = getenv env "MCP_BEARER_TOKEN").
Proof.
  intros env model k t Hk He. unfold mcp_client_init, py_or.
  split; [| split]; intros; rewrite_truthy; split; reflexivity.
Qed.

Lemma init_token_precedence_witness :
  mc_auth_type (mcp_client_init [("MCP_BEARER_TOKEN", "env-bearer-789")] "llama3.2" None None)
    = Some "bearer" /\
  mc_auth_value (mcp_client_init [("MCP_BEARER_TOKEN", "env-bearer-789")] "llama3.2" None None)
    = Some "env-bearer-789".
Proof.
  exact (proj2 (proj2 (init_token_precedence [("MCP_BEARER_TOKEN", "env-bearer-789")] "llama3.2" None None
                         eq_refl eq_refl)) eq_refl eq_refl eq_refl).
Defined.

(** X3: an empty-string credential, given explicitly, counts as none: the
    client is built exactly as if the argument were None. *)
Theorem init_empty_credentials_ignored : forall env model k t,
  mcp_client_init env model (Some "") t = mcp_client_init env model None t /\
  mcp_client_init env model k (Some "") = mcp_client_init env model k None.
Proof. intros env model k t. split; reflexivity. Qed.

(** X4: a client built by [__init__] is unauthenticated exactly when none of
    the explicit [api_key], [token] and the variables [MCP_API_KEY],
    [MCP_TOKEN], [MCP_BEARER_TOKEN] holds a non-empty string; when it is
    authenticated, its [auth_value] is a non-empty string and is its
    [api_key] (type [api_key]) or its [token] (type [bearer]). *)
Theorem init_authentication_sources : forall env model k t,
  let c := mcp_client_init env model k t in
  (is_authenticated c = false <->
     truthy k = false /\ truthy (getenv env "MCP_API_KEY") = false /\ truthy t = false /\
     truthy (getenv env "MCP_TOKEN") = false /\ truthy (getenv env "MCP_BEARER_TOKEN") = false) /\
  (is_authenticated c = true ->
     truthy (mc_auth_value c) = true /\
     ((get_auth_type c = Some "api_key" /\ mc_auth_value c = mc_api_key c) \/
      (get_auth_type c = Some "bearer" /\ mc_auth_value c = mc_token c))).
Proof.
  intros env model k t c. subst c.
  unfold mcp_client_init, is_authenticated, get_auth_type, py_or.
  destruct (truthy k) eqn:Hk;
    [| destruct (truthy (getenv env "MCP_API_KEY")) eqn:He;
       [| destruct (truthy t) eqn:Ht;
          [| destruct (truthy (getenv env "MCP_TOKEN")) eqn:Hm;
             [| destruct (truthy (getenv env "MCP_BEARER_TOKEN")) eqn:Hb]]]];
    rewrite_truthy;
    (split;
     [split; [intros H; first [discriminate | repeat split; assumption]
             | intros (H1 & H2 & H3 & H4 & H5); first [reflexivity | congruence]]
     | intros H; first [discriminate
                       | split; [assumption | first [left; split; reflexivity
                                                   | right; split; reflexivity]]]]).
Qed.

Lemma init_witness_sources :
  is_authenticated (mcp_client_init [("PATH", "/usr/bin"); ("MCP_TOKEN", "")] "llama3.2" (Some "") None) = false /\
  (is_authenticated (mcp_client_init sample_env "llama3.2" None None) = true ->
     truthy (mc_auth_value (mcp_client_init sample_env "llama3.2" None None)) = true /\
     ((get_auth_type (mcp_client_init sample_env "llama3.2" None None) = Some "api_key" /\
       mc_auth_value (mcp_client_init sample_env "llama3.2" None None)
       = mc_api_key (mcp_client_init sample_env "llama3.2" None None)) \/
      (get_auth_type (mcp_client_init sample_env "llama3.2" None None) = Some "bearer" /\
       mc_auth_value (mcp_client_init sample_env "llama3.2" None None)
       = mc_token (mcp_client_init sample_env "llama3.2" None None)))).
Proof.
  split.
  - apply (proj2 (proj1 (init_authentication_sources [("PATH", "/usr/bin"); ("MCP_TOKEN", "")]
                            "llama3.2" (Some "") None))).
    repeat split; reflexivity.
  - exact (proj2 (init_authentication_sources sample_env "llama3.2" None None)).
Defined.

Lemma getenv_env_set_same : forall env k v, getenv (env_set env k v) k = Some v.
Proof.
  induction env as [| [k' v'] rest IH]; intros k v; simpl.
  - rewrite String.eqb_refl. reflexivity.
  - destruct (String.eqb k k') eqn:E; simpl.
    + rewrite String.eqb_refl. reflexivity.
    + rewrite E. apply IH.
Qed.

Lemma getenv_env_set_other : forall env k v k', k' <> k ->
  getenv (env_set env k v) k' = getenv env k'.
Proof.
  induction env as [| [k0 v0] rest IH]; intros k v k' Hne; simpl.
  - apply String.eqb_neq in Hne. rewrite Hne. reflexivity.
  - destruct (String.eqb k k0) eqn:E; simpl.
    + apply String.eqb_eq in E. subst k0.
      apply String.eqb_neq in Hne. rewrite Hne. reflexivity.
    + destruct (String.eqb k' k0); [reflexivity | apply IH; exact Hne].
Qed.

(** The authentication fields of a client built by [__init__]. *)
Lemma init_auth_cases : forall env model k t,
  let c := mcp_client_init env model k t in
  (mc_auth_type c = Some "api_key" /\ truthy (mc_auth_value c) = true) \/
  (mc_auth_type c = Some "bearer" /\ truthy (mc_auth_value c) = true) \/
  (mc_auth_type c = None /\ mc_auth_value c = None).
Proof.
  intros env model k t c. subst c. unfold mcp_client_init, py_or.
  destruct (truthy k) eqn:Hk;
    [| destruct (truthy (getenv env "MCP_API_KEY")) eqn:He;
       [| destruct (truthy t) eqn:Ht;
          [| destruct (truthy (getenv env "MCP_TOKEN")) eqn:Hm;
             [| destruct (truthy (getenv env "MCP_BEARER_TOKEN")) eqn:Hb]]]];
    rewrite_truthy;
    first [left; split; [reflexivity | first [reflexivity | assumption]]
          | right; left; split; [reflexivity | first [reflexivity | assumption]]
          | right; right; split; reflexivity].
Qed.

Lemma truthy_some : forall o, truthy o = true -> o = Some (content_str o).
Proof. intros [v |] H; [reflexivity | discriminate]. Qed.

(** X5: a script path that does not exist (after making it absolute) makes
    [connect_to_server] raise [FileNotFoundError] naming the absolute path,
    before anything is printed or started, the client unchanged. *)
Theorem connect_missing_script : forall os ln c p,
  os_path_exists os (resolve_path os p) = false ->
  connect_to_server os ln c p =
    ([], c, Raise (mk_exc "FileNotFoundError" ("Server script not found: " ++ resolve_path os p))).
Proof. intros os ln c p H. unfold connect_to_server. rewrite H. reflexivity. Qed.

Lemma connect_missing_script_witness :
  connect_to_server sample_os good_launcher (mcp_client_init sample_env "llama3.2" (Some "test-key") None)
    "nonexistent.py" =
  ([], mcp_client_init sample_env "llama3.2" (Some "test-key") None,
   Raise (mk_exc "FileNotFoundError" "Server script not found: /home/user/nonexistent.py")).
Proof.
  exact (connect_missing_script sample_os good_launcher
           (mcp_client_init sample_env "llama3.2" (Some "test-key") None) "nonexistent.py" eq_refl).
Defined.

(** X6: an existing script whose absolute path does not end in [.py] or
    [.js] (the test is case-sensitive) makes [connect_to_server] raise
    [ValueError], before anything is printed or started. *)
Theorem connect_rejects_other_extensions : forall os ln c p,
  os_path_exists os (resolve_path os p) = true ->
  endswith ".py" (resolve_path os p) = false ->
  endswith ".js" (resolve_path os p) = false ->
  connect_to_server os ln c p =
    ([], c, Raise (mk_exc "ValueError" "Server script must be a .py or .js file")).
Proof.
  intros os ln c p Hex Hpy Hjs. unfold connect_to_server. rewrite Hex, Hpy, Hjs. reflexivity.
Qed.

Lemma connect_rejects_other_extensions_witness :
  connect_to_server sample_os good_launcher no_auth_client "server.PY" =
    ([], no_auth_client, Raise (mk_exc "ValueError" "Server script must be a .py or .js file")).
Proof.
  exact (connect_rejects_other_extensions sample_os good_launcher no_auth_client "server.PY"
           eq_refl eq_refl eq_refl).
Defined.

Lemma connect_body_spawns_first : forall ln c command path env,
  exists rest, fst (fst (connect_body ln c command path env)) = CSpawn command [path] env :: rest.
Proof.
  intros ln c command path env. unfold connect_body.
  destruct (stdio_connect ln command [path] env) as [s | e]; [| eexists; reflexivity].
  destruct (initialize ln s) as [u | e]; [| eexists; reflexivity].
  destruct (list_tools s) as [tools | e]; eexists; reflexivity.
Qed.

(** [connect_to_server] once the path checks passed. *)
Lemma connect_after_checks : forall os ln c p,
  os_path_exists os (resolve_path os p) = true ->
  endswith ".py" (resolve_path os p) || endswith ".js" (resolve_path os p) = true ->
  connect_to_server os ln c p =
    let '(log, assigned, r) :=
      connect_body ln c (server_command os (resolve_path os p)) (resolve_path os p)
        (fst (server_environment os c)) in
    let log0 := [CPrint (snd (server_environment os c));
                 CPrint ("Connecting to MCP server: " ++ resolve_path os p)] in
    let c' := match assigned with Some s => set_session c (Some s) | None => c end in
    match r with
    | Ok _ => (app log0 log, c', Ok tt)
    | Raise e =>
        (app log0 (app log [CPrint ("Error connecting to server: " ++ exc_msg e); CTraceback]), c', Raise e)
    end.
Proof.
  intros os ln c p Hex Hext. unfold connect_to_server. cbv zeta. rewrite Hex, Hext.
  destruct (server_environment os c) as [env msg]. reflexivity.
Qed.

(** X7: once the checks pass, [connect_to_server] prints the
    authentication mode and the absolute path, then starts the server:
    [sys.executable] for a [.py] script, [node] otherwise, with the
    absolute path as its only argument and the server environment. *)
Theorem connect_spawns_server : forall os ln c p,
  os_path_exists os (resolve_path os p) = true ->
  endswith ".py" (resolve_path os p) || endswith ".js" (resolve_path os p) = true ->
  exists rest,
    fst (fst (connect_to_server os ln c p)) =
      CPrint (snd (server_environment os c)) ::
      CPrint ("Connecting to MCP server: " ++ resolve_path os p) ::
      CSpawn (if endswith ".py" (resolve_path os p) then sys_executable os else "node")
             [resolve_path os p] (fst (server_environment os c)) :: rest.
Proof.
  intros os ln c p Hex Hext. rewrite (connect_after_checks os ln c p Hex Hext).
  destruct (connect_body_spawns_first ln c (server_command os (resolve_path os p)) (resolve_path os p)
              (fst (server_environment os c))) as [rest Hrest].
  destruct (connect_body ln c (server_command os (resolve_path os p)) (resolve_path os p)
              (fst (server_environment os c))) as [[log assigned] r].
  simpl in Hrest. subst log.
  destruct r; eexists; reflexivity.
Qed.

Lemma connect_spawns_server_witness :
  exists rest,
    fst (fst (connect_to_server sample_os good_launcher no_auth_client "server.py")) =
      CPrint "No authentication configured - connecting without authentication" ::
      CPrint "Connecting to MCP server: /home/user/server.py" ::
      CSpawn "/usr/bin/python3" ["/home/user/server.py"] sample_env :: rest.
Proof.
  exact (connect_spawns_server sample_os good_launcher no_auth_client "server.py" eq_refl eq_refl).
Defined.

(** X8: the server environment is [os.environ] with, for an API key,
    [MCP_API_KEY] set to it and, for a bearer token, both [MCP_TOKEN] and
    [MCP_BEARER_TOKEN] set to it; every other variable is inherited as it
    is, and without authentication the environment is [os.environ]. *)
Theorem server_environment_forwarding : forall os c v,
  mc_auth_value c = Some v ->
  (mc_auth_type c = Some "api_key" ->
     getenv (fst (server_environment os c)) "MCP_API_KEY" = Some v /\
     forall k, k <> "MCP_API_KEY" ->
       getenv (fst (server_environment os c)) k = getenv (os_environ os) k) /\
  (mc_auth_type c = Some "bearer" ->
     getenv (fst (server_environment os c)) "MCP_TOKEN" = Some v /\
     getenv (fst (server_environment os c)) "MCP_BEARER_TOKEN" = Some v /\
     forall k, k <> "MCP_TOKEN" -> k <> "MCP_BEARER_TOKEN" ->
       getenv (fst (server_environment os c)) k = getenv (os_environ os) k).
Proof.
  intros os c v Hv. unfold server_environment. rewrite Hv. simpl content_str. split.
  - intros Ht. rewrite Ht. simpl fst. split; [apply getenv_env_set_same |].
    intros k Hk. apply getenv_env_set_other. exact Hk.
  - intros Ht. rewrite Ht. simpl fst. split; [| split].
    + rewrite getenv_env_set_other by discriminate. apply getenv_env_set_same.
    + apply getenv_env_set_same.
    + intros k Hk1 Hk2. rewrite getenv_env_set_other by exact Hk2.
      apply getenv_env_set_other. exact Hk1.
Qed.

Lemma server_environment_forwarding_witness :
  getenv (fst (server_environment sample_os (mcp_client_init [] "llama3.2" None (Some "tok")))) "MCP_TOKEN"
    = Some "tok" /\
  getenv (fst (server_environment sample_os (mcp_client_init [] "llama3.2" None (Some "tok"))))
    "MCP_BEARER_TOKEN" = Some "tok" /\
  (forall k, k <> "MCP_TOKEN" -> k <> "MCP_BEARER_TOKEN" ->
     getenv (fst (server_environment sample_os (mcp_client_init [] "llama3.2" None (Some "tok")))) k
     = getenv (os_environ sample_os) k).
Proof.
  exact (proj2 (server_environment_forwarding sample_os (mcp_client_init [] "llama3.2" None (Some "tok"))
                  "tok" eq_refl) eq_refl).
Defined.

(** X9: for a client built by [__init__] in the same environment the
    server inherits, the server finds the credential [__init__] chose: in
    [MCP_API_KEY] for an API key, in both [MCP_TOKEN] and
    [MCP_BEARER_TOKEN] for a token; without one it gets the environment
    unchanged. *)
Theorem init_credentials_reach_server : forall os model k t,
  let c := mcp_client_init (os_environ os) model k t in
  (mc_auth_type c = Some "api_key" ->
     getenv (fst (server_environment os c)) "MCP_API_KEY" = mc_auth_value c) /\
  (mc_auth_type c = Some "bearer" ->
     getenv (fst (server_environment os c)) "MCP_TOKEN" = mc_auth_value c /\
     getenv (fst (server_environment os c)) "MCP_BEARER_TOKEN" = mc_auth_value c) /\
  (mc_auth_type c = None -> fst (server_environment os c) = os_environ os).
Proof.
  intros os model k t c.
  destruct (init_auth_cases (os_environ os) model k t) as [[Ht Hv] | [[Ht Hv] | [Ht Hv]]];
    fold c in Ht, Hv.
  - apply truthy_some in Hv.
    destruct (server_environment_forwarding os c _ Hv) as [Ha _].
    split; [| split]; intros H; rewrite H in Ht; try discriminate.
    rewrite Hv. exact (proj1 (Ha H)).
  - apply truthy_some in Hv.
    destruct (server_environment_forwarding os c _ Hv) as [_ Hb].
    split; [| split]; intros H; rewrite H in Ht; try discriminate.
    rewrite Hv. destruct (Hb H) as [H1 [H2 _]]. split; assumption.
  - split; [| split]; intros H; rewrite H in Ht; try discriminate.
    unfold server_environment. rewrite H. reflexivity.
Qed.

Lemma init_credentials_reach_server_witness :
  getenv (fst (server_environment sample_os (mcp_client_init sample_env "llama3.2" None None)))
    "MCP_API_KEY" = Some "env-key".
Proof.
  exact (proj1 (init_credentials_reach_server sample_os "llama3.2" None None) eq_refl).
Defined.

Lemma prefix_app : forall p s, String.prefix p s = true -> exists r, s = p ++ r.
Proof.
  induction p as [| a p IH]; intros s H; [exists s; reflexivity |].
  destruct s as [| b s]; simpl in H; [discriminate |].
  destruct (ascii_dec a b) as [<- |]; [| discriminate].
  destruct (IH s H) as [r ->]. exists r. reflexivity.
Qed.

(** ["unauthorized"] contains ["auth"]: the second test of line 102 never
    decides anything. *)
Lemma contains_unauthorized_auth : forall s,
  contains "unauthorized" s = true -> contains "auth" s = true.
Proof.
  induction s as [| a r IH]; intros H; [discriminate |].
  change (String.prefix "unauthorized" (String a r) || contains "unauthorized" r = true) in H.
  apply orb_true_iff in H. destruct H as [Hp | Hc].
  - apply prefix_app in Hp. destruct Hp as [r' ->]. reflexivity.
  - change (String.prefix "auth" (String a r) || contains "auth" r = true).
    rewrite (IH Hc). apply orb_true_r.
Qed.

Lemma classify_auth_error_eq : forall e,
  classify_auth_error e =
    if contains "auth" (lower (exc_msg e))
    then mk_exc "RuntimeError" ("Authentication failed: " ++ exc_msg e ++ ". Please check your credentials.")
    else e.
Proof.
  intros e. unfold classify_auth_error.
  destruct (contains "auth" (lower (exc_msg e))) eqn:Ha; [reflexivity |].
  destruct (contains "unauthorized" (lower (exc_msg e))) eqn:Hu; [| reflexivity].
  rewrite (contains_unauthorized_auth _ Hu) in Ha. discriminate.
Qed.

(** X10: when the server starts and the session initializes but listing
    the tools raises [e], [connect_to_server] raises a [RuntimeError]
    "Authentication failed: <msg>. Please check your credentials." when
    the lower-cased message contains "auth" (which covers
    "unauthorized"), and [e] itself otherwise. *)
Theorem connect_auth_failure : forall os ln c p s u e,
  os_path_exists os (resolve_path os p) = true ->
  endswith ".py" (resolve_path os p) || endswith ".js" (resolve_path os p) = true ->
  stdio_connect ln (server_command os (resolve_path os p)) [resolve_path os p]
    (fst (server_environment os c)) = Ok s ->
  initialize ln s = Ok u ->
  list_tools s = Raise e ->
  snd (connect_to_server os ln c p) =
    Raise (if contains "auth" (lower (exc_msg e))
           then mk_exc "RuntimeError"
                  ("Authentication failed: " ++ exc_msg e ++ ". Please check your credentials.")
           else e).
Proof.
  intros os ln c p s u e Hex Hext Hs Hi Hl.
  rewrite (connect_after_checks os ln c p Hex Hext). unfold connect_body.
  rewrite Hs, Hi, Hl. rewrite <- classify_auth_error_eq. reflexivity.
Qed.

Lemma connect_auth_failure_witness :
  snd (connect_to_server sample_os auth_fail_launcher no_auth_client "server.py") =
    Raise (mk_exc "RuntimeError"
             "Authentication failed: 401 Unauthorized. Please check your credentials.").
Proof.
  exact (connect_auth_failure sample_os auth_fail_launcher no_auth_client "server.py"
           unauthorized_session tt (mk_exc "McpError" "401 Unauthorized")
           eq_refl eq_refl eq_refl eq_refl eq_refl).
Defined.

Lemma process_query_lists_tools_first : forall rt c q s,
  client_session c = Some s ->
  exists evs r, process_query rt c q = (EvListTools :: evs, r).
Proof.
  intros rt c q s Hs. unfold process_query. rewrite Hs.
  unfold bind at 1, perform at 1. destruct (list_tools s) as [tl | e]; [| do 2 eexists; reflexivity].
  match goal with |- context [let (_, _) := ?X in _] => destruct X as [evs r] end.
  do 2 eexists. reflexivity.
Qed.

(** X11: when [session.initialize()] or [list_tools] fails,
    [connect_to_server] raises but leaves [self.session] set to the
    half-open session, so a later [process_query] does not raise "Not
    connected to server" but goes on to call [list_tools] on it. *)
Theorem connect_failure_keeps_session : forall os ln c p s rt q,
  os_path_exists os (resolve_path os p) = true ->
  endswith ".py" (resolve_path os p) || endswith ".js" (resolve_path os p) = true ->
  stdio_connect ln (server_command os (resolve_path os p)) [resolve_path os p]
    (fst (server_environment os c)) = Ok s ->
  (exists e, initialize ln s = Raise e) \/
  (exists u e, initialize ln s = Ok u /\ list_tools s = Raise e) ->
  (exists e, snd (connect_to_server os ln c p) = Raise e) /\
  mc_session (snd (fst (connect_to_server os ln c p))) = Some s /\
  exists evs r,
    process_query rt (as_client (snd (fst (connect_to_server os ln c p)))) q = (EvListTools :: evs, r).
Proof.
  intros os ln c p s rt q Hex Hext Hs Hfail.
  assert (Hsess : mc_session (snd (fst (connect_to_server os ln c p))) = Some s /\
                  exists e, snd (connect_to_server os ln c p) = Raise e).
  { rewrite (connect_after_checks os ln c p Hex Hext). unfold connect_body. rewrite Hs.
    destruct Hfail as [[e Hi] | [u [e [Hi Hl]]]]; rewrite Hi; [| rewrite Hl];
      split; try reflexivity; eexists; reflexivity. }
  destruct Hsess as [Hsess Hraise]. split; [exact Hraise |]. split; [exact Hsess |].
  apply (process_query_lists_tools_first rt _ q s). exact Hsess.
Qed.

Lemma connect_failure_keeps_session_witness :
  (exists e, snd (connect_to_server sample_os init_fail_launcher no_auth_client "server.py") = Raise e) /\
  mc_session (snd (fst (connect_to_server sample_os init_fail_launcher no_auth_client "server.py")))
    = Some leave_session /\
  exists evs r,
    process_query (replying leave_message)
      (as_client (snd (fst (connect_to_server sample_os init_fail_launcher no_auth_client "server.py"))))
      "leave" = (EvListTools :: evs, r).
Proof.
  apply (connect_failure_keeps_session sample_os init_fail_launcher no_auth_client "server.py"
           leave_session (replying leave_message) "leave" eq_refl eq_refl eq_refl).
  left. eexists. reflexivity.
Defined.

(** X12: every failure of [connect_to_server] after the path checks is
    reported before it propagates: the events end with "Error connecting
    to server: <msg>" and the traceback. *)
Theorem connect_failure_reported : forall os ln c p e,
  os_path_exists os (resolve_path os p) = true ->
  endswith ".py" (resolve_path os p) || endswith ".js" (resolve_path os p) = true ->
  snd (connect_to_server os ln c p) = Raise e ->
  exists pre,
    fst (fst (connect_to_server os ln c p)) =
      app pre [CPrint ("Error connecting to server: " ++ exc_msg e); CTraceback].
Proof.
  intros os ln c p e Hex Hext H.
  rewrite (connect_after_checks os ln c p Hex Hext) in *.
  destruct (connect_body ln c (server_command os (resolve_path os p)) (resolve_path os p)
              (fst (server_environment os c))) as [[log assigned] [u | e']].
  - discriminate.
  - injection H as ->.
    exists (app [CPrint (snd (server_environment os c));
                 CPrint ("Connecting to MCP server: " ++ resolve_path os p)] log).
    reflexivity.
Qed.

Lemma connect_failure_reported_witness :
  exists pre,
    fst (fst (connect_to_server sample_os init_fail_launcher no_auth_client "server.py")) =
      app pre [CPrint ("Error connecting to server: " ++ "Connection closed"); CTraceback].
Proof.
  exact (connect_failure_reported sample_os init_fail_launcher no_auth_client "server.py"
           (mk_exc "McpError" "Connection closed") eq_refl eq_refl eq_refl).
Defined.

Lemma no_cleanup_app : forall l1 l2,
  ~ In MCleanup l1 -> ~ In MCleanup l2 -> ~ In MCleanup (app l1 l2).
Proof. intros l1 l2 H1 H2 H. apply in_app_iff in H. tauto. Qed.

Lemma no_cleanup_connect : forall l, ~ In MCleanup (map MConnect l).
Proof. intros l H. apply in_map_iff in H. destruct H as [x [Hx _]]. discriminate. Qed.

Lemma no_cleanup_chat : forall l, ~ In MCleanup (map MChat l).
Proof. intros l H. apply in_map_iff in H. destruct H as [x [Hx _]]. discriminate. Qed.

Ltac no_cleanup :=
  repeat apply no_cleanup_app;
  first [ apply no_cleanup_connect | apply no_cleanup_chat
        | simpl; intuition discriminate ].

(** X13: [main] runs [cleanup] exactly once, as its last step, whenever
    it finishes, and its outcome is then that of [exit_stack.aclose()]:
    it returns normally when [aclose] does, whatever happened in
    [connect_to_server] or the chat loop; the only other case is a chat
    loop still running, with no cleanup yet. *)
Theorem main_cleanup_once : forall os ln rt aclose file argv inp fuel,
  (snd (main os ln rt aclose file argv inp fuel) = Ok false /\
   ~ In MCleanup (fst (main os ln rt aclose file argv inp fuel))) \/
  ((exists pre, fst (main os ln rt aclose file argv inp fuel) = app pre [MCleanup] /\
                ~ In MCleanup pre) /\
   snd (main os ln rt aclose file argv inp fuel) =
     match aclose with Ok _ => Ok true | Raise e => Raise e end).
Proof.
  intros os ln rt aclose file argv inp fuel. unfold main.
  destruct argv as [| a0 [| a1 rest]]; cbv beta iota zeta;
  (destruct (connect_to_server os ln (mcp_client_init (os_environ os) "llama3.2" None None) _)
     as [[clog c'] [u | e]];
   [ destruct (chat_loop fuel rt (as_client c') inp) as [chlog [rest' | e' | ]];
     [ right | right | left ] | right ]);
  try (destruct aclose);
  (split; [ try (eexists; split; [reflexivity | no_cleanup]) | try reflexivity ]);
  try no_cleanup; try reflexivity.
Qed.

(** X14: when [connect_to_server] raises [e], [main] prints "Error:
    <msg>" and the traceback after the connection events, never starts the
    chat loop, and still runs [cleanup]. *)
Theorem main_connect_failure : forall os ln rt aclose file a0 p rest inp fuel e,
  snd (connect_to_server os ln (mcp_client_init (os_environ os) "llama3.2" None None) p) = Raise e ->
  main os ln rt aclose file (a0 :: p :: rest) inp fuel =
    (app (map MConnect (fst (fst (connect_to_server os ln
                                   (mcp_client_init (os_environ os) "llama3.2" None None) p))))
         [MPrint ("Error: " ++ exc_msg e); MTraceback; MCleanup],
     match aclose with Ok _ => Ok true | Raise e' => Raise e' end).
Proof.
  intros os ln rt aclose file a0 p rest inp fuel e H. unfold main. cbv beta iota zeta.
  destruct (connect_to_server os ln (mcp_client_init (os_environ os) "llama3.2" None None) p)
    as [[clog c'] r]. simpl in H. subst r.
  destruct aclose; simpl; rewrite <- app_assoc; reflexivity.
Qed.

Lemma main_connect_failure_witness :
  main sample_os good_launcher (replying leave_message) (Ok tt) "client.py"
    ["client.py"; "missing.py"] ["quit"] 1 =
    ([MPrint ("Error: " ++ "Server script not found: /home/user/missing.py"); MTraceback; MCleanup],
     Ok true).
Proof.
  exact (main_connect_failure sample_os good_launcher (replying leave_message) (Ok tt) "client.py"
           "client.py" "missing.py" [] ["quit"] 1
           (mk_exc "FileNotFoundError" "Server script not found: /home/user/missing.py") eq_refl).
Defined.

(** X15: at end of input the chat loop never ends: each pass prints the
    prompt, catches the [EOFError] and prints "Error: EOF when reading a
    line", whatever the fuel. *)
Theorem while_loop_at_eof : forall fuel rt c,
  while_loop fuel rt c [] =
    (concat (repeat [EvPrint prompt; EvPrint (nl ++ "Error: EOF when reading a line")] fuel), Running).
Proof.
  induction fuel as [| fuel IH]; intros rt c; [reflexivity |].
  cbn [while_loop]. rewrite iteration_eof. rewrite IH. reflexivity.
Qed.

(** X16: without a quit line in the input, [main] never reaches
    [cleanup] after a successful connection: the chat loop is still
    running however many passes it is given. *)
Theorem main_needs_quit_line : forall os ln rt aclose file a0 p rest inp fuel u,
  snd (connect_to_server os ln (mcp_client_init (os_environ os) "llama3.2" None None) p) = Ok u ->
  Forall (fun l => lower (strip l) <> "quit") inp ->
  snd (main os ln rt aclose file (a0 :: p :: rest) inp fuel) = Ok false /\
  ~ In MCleanup (fst (main os ln rt aclose file (a0 :: p :: rest) inp fuel)).
Proof.
  intros os ln rt aclose file a0 p rest inp fuel u H Hnq.
  assert (Hrun : snd (chat_loop fuel rt
                   (as_client (snd (fst (connect_to_server os ln
                      (mcp_client_init (os_environ os) "llama3.2" None None) p)))) inp) = Running).
  { unfold chat_loop.
    pose proof (while_loop_ends_by_quit fuel rt
                  (as_client (snd (fst (connect_to_server os ln
                     (mcp_client_init (os_environ os) "llama3.2" None None) p)))) inp) as Hw.
    destruct (while_loop _ _ _ inp) as [evs [rest' | e' | ]]; simpl in *; [| contradiction | reflexivity].
    destruct Hw as [pre [line [-> [Hq _]]]].
    apply Forall_app in Hnq. destruct Hnq as [_ Hnq]. inversion Hnq. contradiction. }
  unfold main. cbv beta iota zeta.
  destruct (connect_to_server os ln (mcp_client_init (os_environ os) "llama3.2" None None) p)
    as [[clog c'] r]. simpl in H, Hrun. subst r.
  destruct (chat_loop fuel rt (as_client c') inp) as [chlog ending]. simpl in Hrun. subst ending.
  split; [reflexivity | no_cleanup].
Qed.

Lemma main_needs_quit_line_witness :
  snd (main sample_os good_launcher (replying leave_message) (Ok tt) "client.py"
         ["client.py"; "server.py"] ["leave"; "QUIT please"] 5) = Ok false /\
  ~ In MCleanup (fst (main sample_os good_launcher (replying leave_message) (Ok tt) "client.py"
                        ["client.py"; "server.py"] ["leave"; "QUIT please"] 5)).
Proof.
  apply (main_needs_quit_line sample_os good_launcher (replying leave_message) (Ok tt) "client.py"
           "client.py" "server.py" [] ["leave"; "QUIT please"] 5 tt).
  - reflexivity.
  - repeat constructor; vm_compute; discriminate.
Defined.

(** X17: without a server argument, [main] prints the default path and
    then behaves exactly as when that path is given on the command line. *)
Theorem main_default_server_path : forall os ln rt aclose file argv a0 inp fuel,
  length argv <= 1 ->
  let p := path_join (path_join (dirname (dirname file)) "my-first-mcp-server") "main.py" in
  main os ln rt aclose file argv inp fuel =
    (MPrint ("Using default server path: " ++ p) ::
       fst (main os ln rt aclose file [a0; p] inp fuel),
     snd (main os ln rt aclose file [a0; p] inp fuel)).
Proof.
  intros os ln rt aclose file argv a0 inp fuel Hlen p.
  assert (Hargv : match argv with _ :: _ :: _ => False | _ => True end)
    by (destruct argv as [| x [| y r]]; simpl in Hlen; [exact I | exact I | lia]).
  unfold main. fold p.
  destruct argv as [| x [| y r]]; [| | contradiction]; cbv beta iota zeta;
  (destruct (connect_to_server os ln (mcp_client_init (os_environ os) "llama3.2" None None) p)
     as [[clog c'] [u | e]];
   [ destruct (chat_loop fuel rt (as_client c') inp) as [chlog [rest' | e' | ]] | ]);
  try destruct aclose; reflexivity.
Qed.

Lemma main_default_server_path_witness :
  main sample_os good_launcher (replying leave_message) (Ok tt) "/repo/src/client.py" ["client.py"]
    ["quit"] 1 =
    (MPrint ("Using default server path: " ++ "/repo/my-first-mcp-server/main.py") ::
       fst (main sample_os good_launcher (replying leave_message) (Ok tt) "/repo/src/client.py"
              ["client.py"; "/repo/my-first-mcp-server/main.py"] ["quit"] 1),
     snd (main sample_os good_launcher (replying leave_message) (Ok tt) "/repo/src/client.py"
            ["client.py"; "/repo/my-first-mcp-server/main.py"] ["quit"] 1)).
Proof.
  exact (main_default_server_path sample_os good_launcher (replying leave_message) (Ok tt)
           "/repo/src/client.py" ["client.py"] "client.py" ["quit"] 1 (le_n 1)).
Defined.

Lemma list_ascii_of_string_app : forall s t,
  list_ascii_of_string (s ++ t) = app (list_ascii_of_string s) (list_ascii_of_string t).
Proof. induction s as [| a s IH]; intros t; simpl; [reflexivity | rewrite IH; reflexivity]. Qed.

Lemma string_of_list_ascii_app : forall l m,
  string_of_list_ascii (app l m) = string_of_list_ascii l ++ string_of_list_ascii m.
Proof. induction l as [| a l IH]; intros m; simpl; [reflexivity | rewrite IH; reflexivity]. Qed.

Lemma string_append_assoc : forall s t u, (s ++ t) ++ u = s ++ (t ++ u).
Proof. induction s as [| a s IH]; intros t u; simpl; [reflexivity | rewrite IH; reflexivity]. Qed.

Lemma rev_string_app : forall s t, rev_string (s ++ t) = rev_string t ++ rev_string s.
Proof.
  intros s t. unfold rev_string.
  rewrite list_ascii_of_string_app, rev_app_distr, string_of_list_ascii_app. reflexivity.
Qed.

Lemma drop_while_all : forall f l m,
  (forall a, In a l -> f a = true) -> drop_while f (app l m) = drop_while f m.
Proof.
  intros f l m. induction l as [| a l IH]; intros H; simpl; [reflexivity |].
  rewrite (H a (or_introl eq_refl)). apply IH. intros b Hb. apply H. right. exact Hb.
Qed.


(** [os.path.dirname] drops a last component that has no slash after a
    directory whose name does not end in a slash. *)
Lemma dirname_last_component : forall l c x,
  is_slash c = false ->
  forallb (fun a => negb (is_slash a)) (list_ascii_of_string x) = true ->
  dirname (string_of_list_ascii (app l [c]) ++ "/" ++ x) = string_of_list_ascii (app l [c]).
  intros l c x Hc Hx. unfold dirname.
  rewrite !list_ascii_of_string_app, list_ascii_of_string_of_list_ascii. simpl.
  replace (rev ((l ++ [c]) ++ "/"%char :: list_ascii_of_string x))
    with (app (rev (list_ascii_of_string x)) ("/"%char :: c :: rev l))
    by (rewrite rev_app_distr, rev_app_distr; simpl; rewrite <- app_assoc; reflexivity).
  rewrite drop_while_all.
  2:{ intros a Ha. apply in_rev in Ha. rewrite forallb_forall in Hx. apply Hx. exact Ha. }
  simpl. rewrite Hc. simpl. rewrite rev_involutive, !forallb_app. cbn [forallb]. rewrite Hc. rewrite !andb_false_r. reflexivity.

Qed.

Lemma string_last_char : forall d,
  d <> "" -> endswith "/" d = false ->
  exists l c, d = string_of_list_ascii (app l [c]) /\ is_slash c = false.
Proof.
  intros d Hne Hend.
  destruct (rev (list_ascii_of_string d)) as [| c rl] eqn:Hr.
  - apply (f_equal (@rev ascii)) in Hr. rewrite rev_involutive in Hr. simpl in Hr.
    destruct d; [contradiction | discriminate].
  - exists (rev rl), c.
    assert (Hd : list_ascii_of_string d = app (rev rl) [c]).
    { rewrite <- (rev_involutive (list_ascii_of_string d)), Hr. reflexivity. }
    split.
    + rewrite <- Hd, string_of_list_ascii_of_string. reflexivity.
    + unfold endswith in Hend. change (rev_string "/") with "/" in Hend.
      unfold rev_string in Hend. rewrite Hr in Hend. cbn [String.prefix string_of_list_ascii] in Hend.
      unfold is_slash. destruct (ascii_dec "/" c) as [<- | Hneq]; [destruct (string_of_list_ascii rl); discriminate Hend |].
      apply Ascii.eqb_neq. intros Heq. apply Hneq. symmetry. exact Heq.
Qed.

Lemma no_slash_endswith : forall x,
  forallb (fun a => negb (is_slash a)) (list_ascii_of_string x) = true -> endswith "/" x = false.
Proof.
  intros x Hxs. unfold endswith. change (rev_string "/") with "/". unfold rev_string.
  destruct (rev (list_ascii_of_string x)) as [| a r] eqn:Hr; [reflexivity |].
  cbn [String.prefix string_of_list_ascii]. destruct (ascii_dec "/" a) as [<- | ]; [| reflexivity].
  assert (Hin : In "/"%char (list_ascii_of_string x)).
  { apply in_rev. rewrite Hr. left. reflexivity. }
  rewrite forallb_forall in Hxs. apply Hxs in Hin. discriminate.
Qed.

Lemma path_join_relative : forall a b,
  isabs b = false -> a <> "" -> endswith "/" a = false -> path_join a b = a ++ "/" ++ b.
Proof.
  intros a b Hb Ha He. unfold path_join. rewrite Hb, He.
  apply String.eqb_neq in Ha. rewrite Ha. reflexivity.
Qed.

(** X18: the default server path is [my-first-mcp-server/main.py] in the
    directory two levels above the client script: for [__file__] of the
    form [d/x/y], where [d] does not end in a slash and [x] and [y] are
    single names, it is [d/my-first-mcp-server/main.py]. *)
Theorem default_server_path_location : forall d x y,
  d <> "" -> endswith "/" d = false -> x <> "" ->
  forallb (fun a => negb (is_slash a)) (list_ascii_of_string x) = true ->
  forallb (fun a => negb (is_slash a)) (list_ascii_of_string y) = true ->
  path_join (path_join (dirname (dirname (d ++ "/" ++ x ++ "/" ++ y))) "my-first-mcp-server") "main.py"
    = d ++ "/my-first-mcp-server/main.py".
Proof.
  intros d x y Hne Hend Hx Hxs Hys.
  destruct (string_last_char d Hne Hend) as [l [c [Hd Hc]]].
  destruct (string_last_char x Hx (no_slash_endswith x Hxs)) as [lx [cx [Hxd Hcx]]].
  assert (Hdx : d ++ "/" ++ x = string_of_list_ascii (app (app l (c :: "/"%char :: lx)) [cx])).
  { rewrite <- (string_of_list_ascii_of_string (d ++ "/" ++ x)). f_equal.
    rewrite !list_ascii_of_string_app, Hd, Hxd, !list_ascii_of_string_of_list_ascii.
    rewrite <- !app_assoc. reflexivity. }
  replace (d ++ "/" ++ x ++ "/" ++ y) with ((d ++ "/" ++ x) ++ "/" ++ y)
    by (rewrite string_append_assoc; reflexivity).
  rewrite Hdx, (dirname_last_component _ cx y Hcx Hys), <- Hdx.
  rewrite Hd at 1. rewrite (dirname_last_component l c x Hc Hxs), <- Hd.
  rewrite (path_join_relative d) by (reflexivity || assumption).
  rewrite path_join_relative.
  - rewrite string_append_assoc. reflexivity.
  - reflexivity.
  - destruct d; [contradiction | discriminate].
  - unfold endswith. rewrite rev_string_app. reflexivity.
Qed.

Lemma default_server_path_location_witness :
  path_join (path_join (dirname (dirname ("/repo" ++ "/" ++ "src" ++ "/" ++ "client.py")))
    "my-first-mcp-server") "main.py" = "/repo" ++ "/my-first-mcp-server/main.py".
Proof.
  apply (default_server_path_location "/repo" "src" "client.py");
    first [discriminate | reflexivity].
Defined.

Lemma process_query_trace_cases : forall rt c q,
  (client_session c = None /\ fst (process_query rt c q) = []) \/
  (exists s e, client_session c = Some s /\ list_tools s = Raise e /\
               fst (process_query rt c q) = [EvListTools]) \/
  (exists s tl tcs, client_session c = Some s /\ list_tools s = Ok tl /\
     fst (process_query rt c q) =
       EvListTools :: EvChat (client_model c) (user_messages q) (tools_argument (map to_function_def tl))
         :: map (call_event rt) tcs).
Proof.
  intros rt c q. destruct (client_session c) as [s |] eqn:Hs.
  2:{ left. split; [reflexivity |]. unfold process_query. rewrite Hs. reflexivity. }
  right. destruct (list_tools s) as [tl | e] eqn:Hl.
  2:{ left. exists s, e. split; [reflexivity | split; [exact Hl |]].
      unfold process_query. rewrite Hs. unfold bind at 1, perform at 1. rewrite Hl. reflexivity. }
  right. exists s, tl.
  destruct (ollama_chat rt (client_model c) (user_messages q) (tools_argument (map to_function_def tl)))
    as [msg | e] eqn:Hc.
  - destruct (process_query_outcome rt c q s tl msg Hs Hl Hc)
      as [[_ [outs [Hpq _]]] | [pre [tc [post [e [_ [_ [_ Hpq]]]]]]]].
    + exists (tool_calls_list msg). split; [reflexivity | split; [exact Hl |]].
      rewrite Hpq. reflexivity.
    + exists pre. split; [reflexivity | split; [exact Hl |]].
      rewrite Hpq. reflexivity.
  - exists []. split; [reflexivity | split; [exact Hl |]].
    unfold process_query. rewrite Hs. unfold bind at 1, perform at 1. rewrite Hl.
    unfold bind at 1, perform at 1. rewrite Hc. reflexivity.
Qed.

(** X19: the calls [process_query] makes, in order: nothing without a
    session; [list_tools] alone when it raises; otherwise [list_tools],
    then exactly one model call carrying the model name, the query as the
    only (user) message and the converted tools ([None] when the server
    lists none), then only tool calls. *)
Theorem process_query_call_sequence : forall rt c q,
  (client_session c = None /\ fst (process_query rt c q) = []) \/
  (exists s e, client_session c = Some s /\ list_tools s = Raise e /\
               fst (process_query rt c q) = [EvListTools]) \/
  (exists s tl tcs, client_session c = Some s /\ list_tools s = Ok tl /\
     fst (process_query rt c q) =
       EvListTools ::
       EvChat (client_model c) [PDict [("role", PStr "user"); ("content", PStr q)]]
              (match tl with [] => None | _ => Some (map to_function_def tl) end)
         :: map (call_event rt) tcs).
Proof.
  intros rt c q.
  destruct (process_query_trace_cases rt c q) as [H | [H | [s [tl [tcs [Hs [Hl Htr]]]]]]];
    [left; exact H | right; left; exact H |].
  right. right. exists s, tl, tcs. split; [exact Hs | split; [exact Hl |]].
  rewrite Htr. destruct tl; reflexivity.
Qed.

Lemma chat_in_process_query : forall rt c q m msgs t,
  In (EvChat m msgs t) (fst (process_query rt c q)) -> m = client_model c /\ msgs = user_messages q.
Proof.
  intros rt c q m msgs t Hin.
  destruct (process_query_trace_cases rt c q) as [[_ H] | [[s [e [_ [_ H]]]] | [s [tl [tcs [_ [_ H]]]]]]];
    rewrite H in Hin; simpl in Hin.
  - contradiction.
  - destruct Hin as [Hin | Hin]; [discriminate | contradiction].
  - destruct Hin as [Hin | [Hin | Hin]]; [discriminate | injection Hin as -> -> _; split; reflexivity |].
    apply in_map_iff in Hin. destruct Hin as [tc [Htc _]]. unfold call_event in Htc. discriminate.
Qed.

(** X20: the chat loop keeps no conversation history: every model call it
    makes carries the client's model and a single user message, the
    stripped text of one input line. *)
Theorem chat_loop_no_history : forall fuel rt c inp m msgs t,
  In (EvChat m msgs t) (fst (chat_loop fuel rt c inp)) ->
  m = client_model c /\ exists line, In line inp /\ msgs = user_messages (strip line).
Proof.
  intros fuel rt c inp m msgs t. unfold chat_loop.
  revert inp. induction fuel as [| fuel IH]; intros inp Hin.
  - simpl in Hin. destruct Hin as [H | [H | []]]; discriminate.
  - cbn [while_loop] in Hin.
    destruct (iteration_total rt c inp) as [rest [evs [ctl [Hit [Hbrk Hcont]]]]].
    assert (Hevs : In (EvChat m msgs t) evs ->
                   m = client_model c /\ exists line, In line inp /\ msgs = user_messages (strip line)).
    { intros Hin'. destruct inp as [| line rest0].
      - rewrite iteration_eof in Hit. injection Hit as _ <- _.
        destruct Hin' as [H | [H | []]]; discriminate.
      - destruct (String.eqb (lower (strip line)) "quit") eqn:Hq.
        + apply String.eqb_eq in Hq. rewrite (iteration_quit rt c line rest0 Hq) in Hit.
          injection Hit as _ <- _. destruct Hin' as [H | []]; discriminate.
        + apply String.eqb_neq in Hq. rewrite (iteration_query rt c line rest0 Hq) in Hit.
          injection Hit as _ <- _. destruct Hin' as [H | Hin']; [discriminate |].
          apply in_app_iff in Hin'. destruct Hin' as [Hin' | [H | []]]; [| discriminate].
          destruct (chat_in_process_query rt c (strip line) m msgs t Hin') as [Hm Hmsgs].
          split; [exact Hm |]. exists line. split; [left; reflexivity | exact Hmsgs]. }
    rewrite Hit in Hin. destruct ctl.
    + destruct (while_loop fuel rt c rest) as [evs' e'] eqn:Hw.
      destruct Hin as [H | [H | Hin]]; try discriminate.
      apply in_app_iff in Hin. destruct Hin as [Hin | Hin]; [exact (Hevs Hin) |].
      assert (Hrest : forall l, In l rest -> In l inp).
      { intros l Hl. destruct (Hcont eq_refl) as [[-> ->] | [line [-> _]]]; [exact Hl | right; exact Hl]. }
      specialize (IH rest). rewrite Hw in IH.
      destruct (IH (or_intror (or_intror Hin))) as [Hm [line [Hl Hmsgs]]].
      split; [exact Hm |]. exists line. split; [apply Hrest; exact Hl | exact Hmsgs].
    + destruct Hin as [H | [H | Hin]]; try discriminate. exact (Hevs Hin).
Qed.

Lemma chat_loop_no_history_witness :
  In (EvChat "llama3.2" (user_messages "leave") (Some (map to_function_def [leave_tool])))
     (fst (chat_loop 2 (replying leave_message) (with_session leave_session) ["  leave "; "quit"])) /\
  "llama3.2" = client_model (with_session leave_session) /\
  exists line, In line ["  leave "; "quit"] /\ user_messages "leave" = user_messages (strip line).
Proof.
  assert (Hin : In (EvChat "llama3.2" (user_messages "leave") (Some (map to_function_def [leave_tool])))
     (fst (chat_loop 2 (replying leave_message) (with_session leave_session) ["  leave "; "quit"]))).
  { vm_compute. repeat (first [left; reflexivity | right]). }
  split; [exact Hin |].
  exact (chat_loop_no_history 2 (replying leave_message) (with_session leave_session)
           ["  leave "; "quit"] "llama3.2" (user_messages "leave") _ Hin).
Defined.
